(** * Email verification API: token lifecycle

    A shallow embedding of the Express handlers of the three copies of the
    server kept in this repository:

    - [src/server.js]        the first version (send-verification, verify,
                             check, delete, health);
    - [src/unnamed/part_001] adds the transfer and welcome-purchase mails
                             (its send-verification is that of server.js);
    - [src/unnamed/part_000] adds the pass-through of ready-made action
                             links, resend-verification, device-added and
                             invoice mails.

    The handlers for [GET /api/verify/:token], [POST /api/verify],
    [GET /api/check/:token], [DELETE /api/token/:token] and [GET /health]
    are textually the same in the three files and are embedded once.  The
    mail-sending handlers differ and live in the modules [Server] and
    [Part000].

    The process-wide [Map] [verificationTokens] is a [gmap] from token
    strings to records; a handler is a function from the store (and what it
    reads from its environment: the clock, the uuid drawn, the outcome of the
    provider call) to the new store and the HTTP response. *)

From stdpp Require Import gmap strings list.
From Stdlib Require Import ZArith Lia Ascii.

Local Open Scope string_scope.
Local Open Scope Z_scope.

(** ** Values of the request and of the response *)

(** A field destructured from [req.body]: absent ([undefined]) or a string. *)
Abbreviation field := (option string).

(** JavaScript truthiness of such a field: [undefined] and the empty string
    are falsy. *)
Definition truthy (v : field) : bool :=
  match v with
  | None => false
  | Some s => negb (String.eqb s "")
  end.

(** The string a truthy field holds. *)
Definition str (v : field) : string := default "" v.

(** [a || b] on fields. *)
Definition or_else (v : field) (d : string) : string :=
  if truthy v then str v else d.

(** [userId || null]. *)
Definition or_null (v : field) : field :=
  if truthy v then v else None.

(** [s.includes(sub)]. *)
Fixpoint includes (s sub : string) : bool :=
  String.prefix sub s ||
  match s with
  | EmptyString => false
  | String _ s' => includes s' sub
  end.

(** The JSON values the handlers put in a response body.  [JIsoDate ms]
    stands for [new Date(ms).toISOString()]. *)
Inductive json :=
| JBool (b : bool)
| JStr (s : string)
| JNum (n : Z)
| JNull
| JIsoDate (ms : Z).

(** A field that is a string or [null], as [userId] in a stored record. *)
Definition json_of_field (v : field) : json :=
  match v with
  | Some s => JStr s
  | None => JNull
  end.

(** [res.status(code).json(body)]; the body is the object literal, key by
    key in source order. *)
Record response := Response {
  status : Z;
  body : list (string * json)
}.

(** [res.json(body)] without [res.status]: 200. *)
Definition ok (b : list (string * json)) : response := Response 200 b.

(** The value of a key of a body, when the body has the key. *)
Fixpoint get_key (k : string) (b : list (string * json)) : option json :=
  match b with
  | [] => None
  | (k', v) :: b' => if String.eqb k k' then Some v else get_key k b'
  end.

(** ** The token store *)

(** The object stored under a token (the [verificationTokens.set] calls). *)
Record tokenData := TokenData {
  email : string;
  userId : field;
  expiresAt : Z;
  verified : bool
}.

(** [const verificationTokens = new Map()]. *)
Abbreviation store := (gmap string tokenData).

(** [tokenData.verified = true]: the object is reached only through the map,
    so the assignment is an update of the entry. *)
Definition set_verified (td : tokenData) : tokenData :=
  {| email := email td; userId := userId td;
     expiresAt := expiresAt td; verified := true |}.

(** [24 * 60 * 60 * 1000] milliseconds. *)
Definition TTL : Z := 24 * 60 * 60 * 1000.

(** ** Handlers shared by the three files *)

(** [GET /api/verify/:token] (server.js 170-207).  [now] is [Date.now()]. *)
Definition verify (now : Z) (token : string) (vt : store) : store * response :=
  match vt !! token with
  | None =>
      (vt, Response 404 [("success", JBool false);
                         ("error", JStr "Invalid or not found token")])
  | Some td =>
      if expiresAt td <? now then
        (delete token vt,
         Response 410 [("success", JBool false);
                       ("error", JStr "Token has expired")])
      else if verified td then
        (vt, Response 400 [("success", JBool false);
                           ("error", JStr "Email has already been verified")])
      else
        let td' := set_verified td in
        (<[token := td']> vt,
         ok [("success", JBool true);
             ("message", JStr "Email verified successfully!");
             ("email", JStr (email td'));
             ("userId", json_of_field (userId td'))])
  end.

(** [POST /api/verify] (server.js 214-258): the token comes from the body;
    after the [!token] test the code is that of [verify]. *)
Definition verify_post (now : Z) (token : field) (vt : store) : store * response :=
  if negb (truthy token) then
    (vt, Response 400 [("success", JBool false);
                       ("error", JStr "Token is required")])
  else verify now (str token) vt.

(** [GET /api/check/:token] (server.js 264-285). *)
Definition check (now : Z) (token : string) (vt : store) : store * response :=
  match vt !! token with
  | None =>
      (vt, Response 404 [("success", JBool false);
                         ("error", JStr "Token not found")])
  | Some td =>
      let isExpired := expiresAt td <? now in
      (vt, ok [("success", JBool true);
               ("email", JStr (email td));
               ("verified", JBool (verified td));
               ("expired", JBool isExpired);
               ("expiresAt", JIsoDate (expiresAt td))])
  end.

(** [DELETE /api/token/:token] (server.js 291-300). *)
Definition delete_token (token : string) (vt : store) : store * response :=
  if bool_decide (is_Some (vt !! token)) then
    (delete token vt,
     ok [("success", JBool true); ("message", JStr "Token removed")])
  else
    (vt, Response 404 [("success", JBool false);
                       ("error", JStr "Token not found")]).

(** [GET /health] (server.js 306-312). *)
Definition health (now : Z) (vt : store) : store * response :=
  (vt, ok [("status", JStr "ok");
           ("timestamp", JIsoDate now);
           ("tokensInMemory", JNum (Z.of_nat (size vt)))]).

(** ** Mail-sending handlers: what they share *)

(** The settings read from the environment at start-up:
    [process.env.SENDER_EMAIL || ...] and
    [process.env.FRONTEND_URL || 'http://localhost:3000']. *)
Record config := Config {
  SENDER_EMAIL : string;
  FRONTEND_URL : string
}.

(** [trackerDetails] of the transfer notification. *)
Record tracker := Tracker {
  imei : field;
  vehicleName : field;
  registrationNumber : field
}.

(** The subject, text and html of a message are template literals; a
    template is kept as its name and the values interpolated into it. *)
Inductive template :=
| VerifyEmail (verificationUrl : string)
| ResendEmail (verificationUrl : string)
| WelcomePurchase (firstName displayPlanName displayPrice displayVehicle
                   verificationUrl : string)
| TransferNotification (transferId : string) (trackerDetails : tracker)
                       (fromUserName : field)
| DeviceAdded (firstName vehicleName : string) (planName : field)
              (displayPrice : string)
| Invoice (invoiceId amount invoiceUrl : string) (invoicePdf : field).

(** The object handed to [sgMail.send]; [from] is the sender's address
    (the device-added and invoice mails give it with the display name
    ['DriveCore']). *)
Record msg := Msg {
  to : string;
  from : string;
  content : template
}.

(** The link a message carries, for the three mails that carry the
    handler's [verificationUrl]. *)
Definition verificationUrl_of (m : msg) : option string :=
  match content m with
  | VerifyEmail u | ResendEmail u | WelcomePurchase _ _ _ _ u => Some u
  | _ => None
  end.

(** How a step of a [try] block goes ([await sgMail.send(msg)], or the
    [encodeURIComponent] calls of the transfer mail): it completes, or it
    throws an error whose [message] the [catch] reports. *)
Inductive tryResult :=
| Completed
| Thrown (message : string).

(** What a mail-sending handler does: the store it leaves, the message it
    handed to the provider (if it got that far), the response. *)
Record outcome := Outcome {
  tokens : store;
  sent : option msg;
  resp : response
}.

(** The value of an identifier in an object literal: the value it is bound
    to in scope, or a [ReferenceError] with the engine's message. *)
Definition ident (name : string) (binding : option json) : json + string :=
  match binding with
  | Some v => inl v
  | None => inr (name +:+ " is not defined")
  end.

(** The 400 of the field checks. *)
Definition bad_request (error : string) : response :=
  Response 400 [("success", JBool false); ("error", JStr error)].

(** The 500 of the [catch] blocks. *)
Definition failed (error message : string) : response :=
  Response 500 [("success", JBool false); ("error", JStr error);
                ("details", JStr message)].

(** The record every minting handler stores. *)
Definition fresh_record (email : string) (userId : field) (now : Z) : tokenData :=
  {| email := email; userId := or_null userId;
     expiresAt := now + TTL; verified := false |}.

(** [callbackUrl ? `${callbackUrl}?token=${token}`
                 : `${FRONTEND_URL}/verify?token=${token}`]. *)
Definition token_url (cfg : config) (callbackUrl : field) (token : string) : string :=
  if truthy callbackUrl then str callbackUrl +:+ "?token=" +:+ token
  else FRONTEND_URL cfg +:+ "/verify?token=" +:+ token.

(** ** src/server.js *)

Module Server.

(** [POST /api/send-verification] (server.js 29-164).  [token] is the value
    of [uuidv4()], [now] of [Date.now()], [send] the outcome of the provider
    call.  [token] is declared in the function's [try] block, in scope at
    the response. *)
Definition send_verification (cfg : config) (now : Z) (token : string)
    (send : tryResult) (email userId callbackUrl : field) (vt : store) : outcome :=
  if negb (truthy email) then
    Outcome vt None (bad_request "Email is required")
  else
    let vt' := <[token := fresh_record (str email) userId now]> vt in
    let verificationUrl := token_url cfg callbackUrl token in
    let m := Msg (str email) (SENDER_EMAIL cfg) (VerifyEmail verificationUrl) in
    match send with
    | Thrown message =>
        Outcome vt' (Some m) (failed "Failed to send verification email" message)
    | Completed =>
        match ident "token" (Some (JStr token)) with
        | inl tok =>
            Outcome vt' (Some m)
              (ok [("success", JBool true);
                   ("message", JStr "Verification email sent successfully");
                   ("token", tok)])
        | inr message =>
            Outcome vt' (Some m) (failed "Failed to send verification email" message)
        end
    end.

End Server.

(** ** src/unnamed/part_000 *)

Module Part000.

(** The test of [POST /api/send-verification] and of
    [POST /api/resend-verification] (part_000 43, 194):
    [callbackUrl && (callbackUrl.includes('oobCode=') ||
                     callbackUrl.includes('mode=verifyEmail'))]. *)
Definition is_action_link (callbackUrl : field) : bool :=
  truthy callbackUrl &&
  (includes (str callbackUrl) "oobCode=" ||
   includes (str callbackUrl) "mode=verifyEmail").

(** The test of [POST /api/send-welcome-purchase] (part_000 652), which
    also looks for the Firebase host. *)
Definition is_firebase_link (callbackUrl : field) : bool :=
  truthy callbackUrl &&
  (includes (str callbackUrl) "oobCode=" ||
   includes (str callbackUrl) "firebaseapp.com" ||
   includes (str callbackUrl) "mode=verifyEmail").

(** The [if]/[else] that fixes [verificationUrl] (part_000 40-63, 191-212,
    647-673): the link as it is, or a token minted and stored.  [token] is
    declared by [const] inside the [else] block. *)
Definition decide_url (pass_through : bool) (cfg : config) (now : Z)
    (token : string) (email : string) (userId callbackUrl : field)
    (vt : store) : store * string :=
  if pass_through then (vt, str callbackUrl)
  else (<[token := fresh_record email userId now]> vt,
        token_url cfg callbackUrl token).

(** [POST /api/send-verification] (part_000 29-173).  The response names
    [token] (line 161) outside the block that declares it (line 48): no
    binding is in scope there, the reference throws inside the [try] and
    the [catch] answers. *)
Definition send_verification (cfg : config) (now : Z) (token : string)
    (send : tryResult) (email userId callbackUrl : field) (vt : store) : outcome :=
  if negb (truthy email) then
    Outcome vt None (bad_request "Email is required")
  else
    let '(vt', verificationUrl) :=
      decide_url (is_action_link callbackUrl) cfg now token (str email)
                 userId callbackUrl vt in
    let m := Msg (str email) (SENDER_EMAIL cfg) (VerifyEmail verificationUrl) in
    match send with
    | Thrown message =>
        Outcome vt' (Some m) (failed "Failed to send verification email" message)
    | Completed =>
        match ident "token" None with
        | inl tok =>
            Outcome vt' (Some m)
              (ok [("success", JBool true);
                   ("message", JStr "Verification email sent successfully");
                   ("token", tok)])
        | inr message =>
            Outcome vt' (Some m) (failed "Failed to send verification email" message)
        end
    end.

(** [POST /api/resend-verification] (part_000 179-307): the same decision;
    the response does not name [token]. *)
Definition resend_verification (cfg : config) (now : Z) (token : string)
    (send : tryResult) (email userId callbackUrl : field) (vt : store) : outcome :=
  if negb (truthy email) then
    Outcome vt None (bad_request "Email is required")
  else
    let '(vt', verificationUrl) :=
      decide_url (is_action_link callbackUrl) cfg now token (str email)
                 userId callbackUrl vt in
    let m := Msg (str email) (SENDER_EMAIL cfg) (ResendEmail verificationUrl) in
    match send with
    | Thrown message =>
        Outcome vt' (Some m) (failed "Failed to resend verification email" message)
    | Completed =>
        Outcome vt' (Some m)
          (ok [("success", JBool true);
               ("message", JStr "Verification email resent successfully")])
    end.

(** [POST /api/send-transfer-notification] (part_000 441-622).  [encode] is
    how the three [encodeURIComponent] calls of [acceptUrl] go. *)
Definition send_transfer_notification (cfg : config) (encode send : tryResult)
    (email transferId : field) (trackerDetails : option tracker)
    (fromUserName : field) (vt : store) : outcome :=
  if negb (truthy email) || negb (truthy transferId)
     || negb (bool_decide (is_Some trackerDetails)) then
    Outcome vt None
      (bad_request "Email, transferId, and trackerDetails are required")
  else
    match encode with
    | Thrown message =>
        Outcome vt None
          (failed "Failed to send transfer notification email" message)
    | Completed =>
        let m := Msg (str email) (SENDER_EMAIL cfg)
                   (TransferNotification (str transferId)
                      (default (Tracker None None None) trackerDetails)
                      fromUserName) in
        match send with
        | Thrown message =>
            Outcome vt (Some m)
              (failed "Failed to send transfer notification email" message)
        | Completed =>
            Outcome vt (Some m)
              (ok [("success", JBool true);
                   ("message",
                    JStr "Transfer notification email sent successfully")])
        end
    end.

(** [POST /api/send-welcome-purchase] (part_000 636-855).  As in
    [send_verification], [token] (line 843) is named outside the block that
    declares it (line 658). *)
Definition send_welcome_purchase (cfg : config) (now : Z) (token : string)
    (send : tryResult)
    (email userId firstName planName planPrice vehicleName callbackUrl : field)
    (vt : store) : outcome :=
  if negb (truthy email) || negb (truthy firstName) then
    Outcome vt None (bad_request "Email and firstName are required")
  else
    let '(vt', verificationUrl) :=
      decide_url (is_firebase_link callbackUrl) cfg now token (str email)
                 userId callbackUrl vt in
    let displayPlanName := or_else planName "GPS Tracker" in
    let displayPrice := or_else planPrice "" in
    let displayVehicle := or_else vehicleName "your vehicle" in
    let m := Msg (str email) (SENDER_EMAIL cfg)
               (WelcomePurchase (str firstName) displayPlanName displayPrice
                                displayVehicle verificationUrl) in
    match send with
    | Thrown message =>
        Outcome vt' (Some m) (failed "Failed to send welcome email" message)
    | Completed =>
        match ident "token" None with
        | inl tok =>
            Outcome vt' (Some m)
              (ok [("success", JBool true);
                   ("message", JStr "Welcome email sent successfully");
                   ("token", tok)])
        | inr message =>
            Outcome vt' (Some m) (failed "Failed to send welcome email" message)
        end
    end.

(** [POST /api/send-device-added] (part_000 868-1032). *)
Definition send_device_added (cfg : config) (send : tryResult)
    (email firstName vehicleName planName planPrice : field)
    (vt : store) : outcome :=
  if negb (truthy email) || negb (truthy firstName)
     || negb (truthy vehicleName) then
    Outcome vt None
      (bad_request "Email, firstName, and vehicleName are required")
  else
    let displayPrice := or_else planPrice "" in
    let m := Msg (str email) (SENDER_EMAIL cfg)
               (DeviceAdded (str firstName) (str vehicleName) planName
                            displayPrice) in
    match send with
    | Thrown message =>
        Outcome vt (Some m) (failed "Failed to send device added email" message)
    | Completed =>
        Outcome vt (Some m)
          (ok [("success", JBool true);
               ("message", JStr "Device added email sent successfully")])
    end.

(** [POST /api/send-invoice] (part_000 1044-1243). *)
Definition send_invoice (cfg : config) (send : tryResult)
    (email invoiceId amount invoiceUrl invoicePdf : field)
    (vt : store) : outcome :=
  if negb (truthy email) || negb (truthy invoiceId) || negb (truthy amount)
     || negb (truthy invoiceUrl) then
    Outcome vt None
      (bad_request "Email, invoiceId, amount, and invoiceUrl are required")
  else
    let m := Msg (str email) (SENDER_EMAIL cfg)
               (Invoice (str invoiceId) (str amount) (str invoiceUrl)
                        invoicePdf) in
    match send with
    | Thrown message =>
        Outcome vt (Some m) (failed "Failed to send invoice email" message)
    | Completed =>
        Outcome vt (Some m)
          (ok [("success", JBool true);
               ("message", JStr "Invoice email sent successfully")])
    end.

End Part000.

(** ** src/unnamed/part_001 *)

Module Part001.

(** [POST /api/send-welcome-purchase] (part_001 499-700): no test of the
    link; a token is always drawn, at the function's [try] block, and is in
    scope at the response. *)
Definition send_welcome_purchase (cfg : config) (now : Z) (token : string)
    (send : tryResult)
    (email userId firstName planName planPrice vehicleName callbackUrl : field)
    (vt : store) : outcome :=
  if negb (truthy email) || negb (truthy firstName) then
    Outcome vt None (bad_request "Email and firstName are required")
  else
    let vt' := <[token := fresh_record (str email) userId now]> vt in
    let verificationUrl := token_url cfg callbackUrl token in
    let displayPlanName := or_else planName "GPS Tracker" in
    let displayPrice := or_else planPrice "" in
    let displayVehicle := or_else vehicleName "your vehicle" in
    let m := Msg (str email) (SENDER_EMAIL cfg)
               (WelcomePurchase (str firstName) displayPlanName displayPrice
                                displayVehicle verificationUrl) in
    match send with
    | Thrown message =>
        Outcome vt' (Some m) (failed "Failed to send welcome email" message)
    | Completed =>
        match ident "token" (Some (JStr token)) with
        | inl tok =>
            Outcome vt' (Some m)
              (ok [("success", JBool true);
                   ("message", JStr "Welcome email sent successfully");
                   ("token", tok)])
        | inr message =>
            Outcome vt' (Some m) (failed "Failed to send welcome email" message)
        end
    end.

End Part001.

(** ** The accept link of the transfer mail (part_000 453) *)

(** Strings are byte strings holding UTF-8.  On a well-formed string
    [encodeURIComponent] keeps the characters [A-Z a-z 0-9 - _ . ! ~ * ' ( )]
    and writes every other byte as [%] and two upper-case hexadecimal
    digits. *)
Definition is_alnum (c : Ascii.ascii) : bool :=
  let n := Ascii.N_of_ascii c in
  ((48 <=? n) && (n <=? 57) || (65 <=? n) && (n <=? 90)
   || (97 <=? n) && (n <=? 122))%N.

Definition uriUnescaped (c : Ascii.ascii) : bool :=
  is_alnum c || includes "-_.!~*'()" (String c "").

Definition hex_digit (n : N) : Ascii.ascii :=
  default "0"%char (String.get (N.to_nat n) "0123456789ABCDEF").

(** The value of a hexadecimal digit [hex_digit] writes. *)
Definition unhex (c : Ascii.ascii) : N :=
  let n := Ascii.N_of_ascii c in
  (if n <? 65 then n - 48 else n - 55)%N.

Definition escape (c : Ascii.ascii) : string :=
  let n := Ascii.N_of_ascii c in
  String "%" (String (hex_digit (n / 16)) (String (hex_digit (n mod 16)) "")).

Fixpoint encodeURIComponent (s : string) : string :=
  match s with
  | EmptyString => ""
  | String c s' =>
      (if uriUnescaped c then String c "" else escape c)
      +:+ encodeURIComponent s'
  end.

(** [String(v)]: what a template literal or [encodeURIComponent] makes of a
    field. *)
Definition to_string (v : field) : string := default "undefined" v.

(** [`${FRONTEND_URL}/register?imei=${encodeURIComponent(trackerDetails.imei)}
      &transferId=${encodeURIComponent(transferId)}
      &email=${encodeURIComponent(email)}`] (one line in the source). *)
Definition acceptUrl (cfg : config) (trackerDetails : tracker)
    (transferId email : string) : string :=
  FRONTEND_URL cfg +:+ "/register?imei="
    +:+ encodeURIComponent (to_string (imei trackerDetails))
    +:+ "&transferId=" +:+ encodeURIComponent transferId
    +:+ "&email=" +:+ encodeURIComponent email.

(** ** The service as a whole *)

(** One request to a route, with what its handler reads from outside the
    store while it runs: the uuid [uuidv4()] would return, how the provider
    call goes. *)
Inductive request :=
| SendVerification (token : string) (send : tryResult)
                   (email userId callbackUrl : field)
| ResendVerification (token : string) (send : tryResult)
                     (email userId callbackUrl : field)
| SendTransferNotification (encode send : tryResult) (email transferId : field)
                           (trackerDetails : option tracker)
                           (fromUserName : field)
| SendWelcomePurchase (token : string) (send : tryResult)
    (email userId firstName planName planPrice vehicleName callbackUrl : field)
| SendDeviceAdded (send : tryResult)
                  (email firstName vehicleName planName planPrice : field)
| SendInvoice (send : tryResult)
              (email invoiceId amount invoiceUrl invoicePdf : field)
| VerifyGet (token : string)
| VerifyPost (token : field)
| Check (token : string)
| DeleteToken (token : string)
| Health.

Definition of_outcome (o : outcome) : store * response := (tokens o, resp o).

(** The routes of part_000; [now] is the clock when the request is served. *)
Definition handle (cfg : config) (now : Z) (r : request) (vt : store)
  : store * response :=
  match r with
  | SendVerification token send email userId callbackUrl =>
      of_outcome (Part000.send_verification cfg now token send email userId
                                            callbackUrl vt)
  | ResendVerification token send email userId callbackUrl =>
      of_outcome (Part000.resend_verification cfg now token send email userId
                                              callbackUrl vt)
  | SendTransferNotification encode send email transferId trackerDetails
                             fromUserName =>
      of_outcome (Part000.send_transfer_notification cfg encode send email
                    transferId trackerDetails fromUserName vt)
  | SendWelcomePurchase token send email userId firstName planName planPrice
                        vehicleName callbackUrl =>
      of_outcome (Part000.send_welcome_purchase cfg now token send email userId
                    firstName planName planPrice vehicleName callbackUrl vt)
  | SendDeviceAdded send email firstName vehicleName planName planPrice =>
      of_outcome (Part000.send_device_added cfg send email firstName
                    vehicleName planName planPrice vt)
  | SendInvoice send email invoiceId amount invoiceUrl invoicePdf =>
      of_outcome (Part000.send_invoice cfg send email invoiceId amount
                    invoiceUrl invoicePdf vt)
  | VerifyGet token => verify now token vt
  | VerifyPost token => verify_post now token vt
  | Check token => check now token vt
  | DeleteToken token => delete_token token vt
  | Health => health now vt
  end.

(** The routes of server.js; the other requests find no route there. *)
Definition handle_server (cfg : config) (now : Z) (r : request) (vt : store)
  : option (store * response) :=
  match r with
  | SendVerification token send email userId callbackUrl =>
      Some (of_outcome (Server.send_verification cfg now token send email
                          userId callbackUrl vt))
  | VerifyGet token => Some (verify now token vt)
  | VerifyPost token => Some (verify_post now token vt)
  | Check token => Some (check now token vt)
  | DeleteToken token => Some (delete_token token vt)
  | Health => Some (health now vt)
  | _ => None
  end.

(** The token a request makes its handler draw and store: the handler
    reaches [uuidv4()] only past the field checks and in the [else] branch
    of the link test. *)
Definition minted (r : request) : option string :=
  match r with
  | SendVerification token _ email _ callbackUrl
  | ResendVerification token _ email _ callbackUrl =>
      if truthy email && negb (Part000.is_action_link callbackUrl)
      then Some token else None
  | SendWelcomePurchase token _ email _ firstName _ _ _ callbackUrl =>
      if truthy email && truthy firstName
         && negb (Part000.is_firebase_link callbackUrl)
      then Some token else None
  | _ => None
  end.

(** The mail-sending routes of part_000 with all that they do: the store,
    the message handed to the provider, the response.  The other routes
    send no mail. *)
Definition mail_outcome (cfg : config) (now : Z) (r : request) (vt : store)
  : option outcome :=
  match r with
  | SendVerification token send email userId callbackUrl =>
      Some (Part000.send_verification cfg now token send email userId
                                      callbackUrl vt)
  | ResendVerification token send email userId callbackUrl =>
      Some (Part000.resend_verification cfg now token send email userId
                                        callbackUrl vt)
  | SendTransferNotification encode send email transferId trackerDetails
                             fromUserName =>
      Some (Part000.send_transfer_notification cfg encode send email
              transferId trackerDetails fromUserName vt)
  | SendWelcomePurchase token send email userId firstName planName planPrice
                        vehicleName callbackUrl =>
      Some (Part000.send_welcome_purchase cfg now token send email userId
              firstName planName planPrice vehicleName callbackUrl vt)
  | SendDeviceAdded send email firstName vehicleName planName planPrice =>
      Some (Part000.send_device_added cfg send email firstName
              vehicleName planName planPrice vt)
  | SendInvoice send email invoiceId amount invoiceUrl invoicePdf =>
      Some (Part000.send_invoice cfg send email invoiceId amount
              invoiceUrl invoicePdf vt)
  | _ => None
  end.

(** The token a request is about: the one in its path or body, or the one
    its handler draws. *)
Definition target (r : request) : option string :=
  match r with
  | VerifyGet token | Check token | DeleteToken token => Some token
  | VerifyPost token => token
  | _ => minted r
  end.

(** The number [GET /health] reports as [tokensInMemory]. *)
Definition tokensInMemory (now : Z) (vt : store) : option json :=
  get_key "tokensInMemory" (body (health now vt).2).

(** The status a check announces for a verify at the same time: from the
    [verified] and [expired] fields of a 200, 404 otherwise. *)
Definition announced (r : response) : Z :=
  match get_key "expired" (body r), get_key "verified" (body r) with
  | Some (JBool true), _ => 410
  | Some (JBool false), Some (JBool true) => 400
  | Some (JBool false), Some (JBool false) => 200
  | _, _ => status r
  end.

(** Requests served one after the other, each at its own time. *)
Fixpoint run (cfg : config) (evs : list (Z * request)) (vt : store) : store :=
  match evs with
  | [] => vt
  | (now, r) :: evs' => run cfg evs' (handle cfg now r vt).1
  end.

(** Every token drawn along [evs] is fresh: it is none of [used], the
    tokens issued so far. *)
Fixpoint fresh_tokens (used : gset string) (evs : list (Z * request)) : Prop :=
  match evs with
  | [] => True
  | (_, r) :: evs' =>
      match minted r with
      | Some token => (token ∉ used) ∧ fresh_tokens ({[token]} ∪ used) evs'
      | None => fresh_tokens used evs'
      end
  end.

(** Whether a request is a verify of [t], by path or by body. *)
Definition is_verify_of (t : string) (r : request) : bool :=
  match r with
  | VerifyGet token => String.eqb t token
  | VerifyPost (Some token) => String.eqb t token
  | _ => false
  end.

(** The number of verifies of [t] that are answered 200 while [evs] is
    served from the store [vt]. *)
Fixpoint successes (cfg : config) (t : string) (evs : list (Z * request))
    (vt : store) : nat :=
  match evs with
  | [] => 0
  | (now, r) :: evs' =>
      Nat.add
        (if is_verify_of t r && (status (handle cfg now r vt).2 =? 200)
         then 1%nat else 0%nat)
        (successes cfg t evs' (handle cfg now r vt).1)
  end.

(** [n] calls of [GET /api/check/:token], at the times [nows]. *)
Definition checks (nows : list Z) (token : string) (vt : store) : store :=
  foldl (fun s now => (check now token s).1) vt nows.

(** ** Readings of a response *)

(** The body has a [success] key holding a boolean. *)
Definition carries_success (r : response) : Prop :=
  ∃ b, get_key "success" (body r) = Some (JBool b).

(** The shape [{success:false, error, details?}]. *)
Definition error_shape (r : response) : Prop :=
  (∃ e, body r = [("success", JBool false); ("error", JStr e)]) ∨
  (∃ e d, body r = [("success", JBool false); ("error", JStr e);
                    ("details", JStr d)]).

(** ** Sample data *)

(** The settings when the environment sets neither variable (part_000). *)
Definition default_config : config :=
  Config "noreply@drivecore.co.uk" "http://localhost:3000".

(** Two version-4 uuids. *)
Definition uuid_a : string := "3b241101-e2bb-4255-8caf-4136c566a962".
Definition uuid_b : string := "9f1c2d7e-58a4-4c3b-b0d6-7e2a1f4c8d15".

(** A link on the Firebase host that carries neither marker. *)
Definition host_link : string := "https://app.firebaseapp.com/verify".

(** The action link of the end-to-end scenario of the specification. *)
Definition idp_link : string :=
  "https://idp/action?mode=verifyEmail&oobCode=abc".

(** A store holding one record: verified, expiring at 1000. *)
Definition verified_store : store :=
  {[ uuid_a := TokenData "a@b.com" None 1000 true ]}.

(** A store holding one record: unverified, expiring at 1000. *)
Definition pending_store : store :=
  {[ uuid_a := TokenData "a@b.com" None 1000 false ]}.

(** Three requests served in turn: a check and a verify of [uuid_a], then
    a create that draws [uuid_b]. *)
Definition sample_requests : list (Z * request) :=
  [(10, Check uuid_a);
   (20, VerifyGet uuid_a);
   (30, SendVerification uuid_b Completed (Some "x@y.com") None None)].

(** Verifies of [uuid_a] by both routes, with a check between them. *)
Definition sample_verifies : list (Z * request) :=
  [(10, VerifyGet uuid_a);
   (20, VerifyPost (Some uuid_a));
   (30, Check uuid_a);
   (40, VerifyGet uuid_a)].

(** ** Proof steps used more than once *)

(** Closes the case of a handler that stores the record it has built. *)
Ltac stores_fresh :=
  right; left; eexists _, (fresh_record _ _ _); repeat split.

(** Closes the cases on the shape of a response once the handler has been
    unfolded to it. *)
Ltac response_cases :=
  repeat case_match; simpl;
  repeat split;
  try (intros; congruence);
  try (intros; eexists; reflexivity);
  try (intros; solve [left; eexists; reflexivity
                     | right; do 2 eexists; reflexivity]).

(** * Properties *)

(** ** The token routes, case by case *)

Section TokenRoutes.

Variables (now : Z) (token : string) (vt : store).

Lemma verify_unknown :
  vt !! token = None →
  verify now token vt =
    (vt, Response 404 [("success", JBool false);
                       ("error", JStr "Invalid or not found token")]).
Proof. unfold verify. by intros ->. Qed.

Lemma verify_expired td :
  vt !! token = Some td → expiresAt td < now →
  verify now token vt =
    (delete token vt, Response 410 [("success", JBool false);
                                    ("error", JStr "Token has expired")]).
Proof.
  unfold verify. intros -> Hlt.
  by rewrite (proj2 (Z.ltb_lt _ _) Hlt).
Qed.

Lemma verify_again td :
  vt !! token = Some td → now ≤ expiresAt td → verified td = true →
  verify now token vt =
    (vt, Response 400 [("success", JBool false);
                       ("error", JStr "Email has already been verified")]).
Proof.
  unfold verify. intros -> Hle ->.
  by rewrite (proj2 (Z.ltb_ge _ _) Hle).
Qed.

Lemma verify_first td :
  vt !! token = Some td → now ≤ expiresAt td → verified td = false →
  verify now token vt =
    (<[token := set_verified td]> vt,
     ok [("success", JBool true);
         ("message", JStr "Email verified successfully!");
         ("email", JStr (email td));
         ("userId", json_of_field (userId td))]).
Proof.
  unfold verify. intros -> Hle ->.
  by rewrite (proj2 (Z.ltb_ge _ _) Hle).
Qed.

Lemma check_unknown :
  vt !! token = None →
  check now token vt =
    (vt, Response 404 [("success", JBool false);
                       ("error", JStr "Token not found")]).
Proof. unfold check. by intros ->. Qed.

Lemma check_store : (check now token vt).1 = vt.
Proof. unfold check. by destruct (vt !! token). Qed.

Lemma verify_post_named :
  token ≠ "" → verify_post now (Some token) vt = verify now token vt.
Proof.
  intros Hne. unfold verify_post, truthy, str. simpl.
  destruct (String.eqb_spec token "") as [->|_]; [done|reflexivity].
Qed.

End TokenRoutes.

Lemma checks_store nows token (vt : store) : checks nows token vt = vt.
Proof.
  unfold checks. revert vt.
  induction nows as [|now nows IH]; intros vt; simpl; [done|].
  by rewrite check_store.
Qed.

(** ** The minting handlers *)

Lemma includes_empty sub : sub ≠ "" → includes "" sub = false.
Proof. by destruct sub. Qed.

Lemma action_link_present url :
  includes url "oobCode=" = true ∨ includes url "mode=verifyEmail" = true →
  Part000.is_action_link (Some url) = true.
Proof.
  intros H. unfold Part000.is_action_link, truthy, str. simpl.
  destruct (String.eqb_spec url "") as [->|_].
  - by destruct H as [H|H]; rewrite includes_empty in H.
  - simpl. destruct H as [-> | ->]; [done|by rewrite orb_true_r].
Qed.

Section Minting.

Variables (cfg : config) (now : Z) (token : string) (send : tryResult).
Variables (email userId callbackUrl : field) (vt : store).

Lemma send_verification_mints :
  truthy email = true → Part000.is_action_link callbackUrl = false →
  let o := Part000.send_verification cfg now token send email userId
                                     callbackUrl vt in
  tokens o = <[token := fresh_record (str email) userId now]> vt ∧
  sent o = Some (Msg (str email) (SENDER_EMAIL cfg)
                     (VerifyEmail (token_url cfg callbackUrl token))).
Proof.
  intros He Hcb. unfold Part000.send_verification, Part000.decide_url.
  rewrite He, Hcb. simpl. by destruct send.
Qed.

Lemma send_verification_relays :
  truthy email = true → Part000.is_action_link callbackUrl = true →
  let o := Part000.send_verification cfg now token send email userId
                                     callbackUrl vt in
  tokens o = vt ∧
  sent o = Some (Msg (str email) (SENDER_EMAIL cfg)
                     (VerifyEmail (str callbackUrl))).
Proof.
  intros He Hcb. unfold Part000.send_verification, Part000.decide_url.
  rewrite He, Hcb. simpl. by destruct send.
Qed.

Lemma send_verification_unbound_token :
  truthy email = true →
  resp (Part000.send_verification cfg now token Completed email userId
                                  callbackUrl vt) =
    failed "Failed to send verification email" "token is not defined".
Proof.
  intros He. unfold Part000.send_verification. rewrite He. simpl.
  by destruct (Part000.decide_url _ _ _ _ _ _ _ _).
Qed.

Lemma server_send_verification_mints :
  truthy email = true →
  let o := Server.send_verification cfg now token send email userId
                                    callbackUrl vt in
  tokens o = <[token := fresh_record (str email) userId now]> vt ∧
  sent o = Some (Msg (str email) (SENDER_EMAIL cfg)
                     (VerifyEmail (token_url cfg callbackUrl token))).
Proof.
  intros He. unfold Server.send_verification.
  rewrite He. simpl. by destruct send.
Qed.

Lemma server_send_verification_ok :
  truthy email = true →
  resp (Server.send_verification cfg now token Completed email userId
                                 callbackUrl vt) =
    ok [("success", JBool true);
        ("message", JStr "Verification email sent successfully");
        ("token", JStr token)].
Proof. intros He. unfold Server.send_verification. by rewrite He. Qed.

End Minting.

(** A record just stored is read back by [check] as unverified and
    unexpired, at any time up to its expiry. *)
Lemma check_minted now0 now token email userId (vt : store) :
  now ≤ now0 + TTL →
  check now token (<[token := fresh_record email userId now0]> vt) =
    (<[token := fresh_record email userId now0]> vt,
     ok [("success", JBool true);
         ("email", JStr email);
         ("verified", JBool false);
         ("expired", JBool false);
         ("expiresAt", JIsoDate (now0 + TTL))]).
Proof.
  intros Hle. unfold check. rewrite lookup_insert_eq. simpl.
  by rewrite (proj2 (Z.ltb_ge _ _) Hle).
Qed.

(** In server.js the round trip of create and check is complete: the link
    mailed is the frontend's verify page with the token, the response
    carries the token, and [check] of it reads the record back. *)
Lemma server_round_trip cfg now token email userId (vt : store) :
  truthy email = true →
  let o := Server.send_verification cfg now token Completed email userId
                                    None vt in
  (verificationUrl_of <$> sent o)
    = Some (Some (FRONTEND_URL cfg +:+ "/verify?token=" +:+ token)) ∧
  status (resp o) = 200 ∧
  get_key "token" (body (resp o)) = Some (JStr token) ∧
  (check now token (tokens o)).2 =
    ok [("success", JBool true);
        ("email", JStr (str email));
        ("verified", JBool false);
        ("expired", JBool false);
        ("expiresAt", JIsoDate (now + TTL))].
Proof.
  intros He. simpl.
  destruct (server_send_verification_mints cfg now token Completed email
              userId None vt He) as [Ht Hs].
  rewrite (server_send_verification_ok cfg now token email userId None vt He).
  simpl in Ht, Hs. rewrite Ht, Hs, check_minted; [|unfold TTL; lia].
  by repeat split.
Qed.

(** In part_000 the store and the mail are the same; only the response
    differs (see [send_verification_unbound_token]). *)
Lemma part000_half_round_trip cfg now token send email userId (vt : store) :
  truthy email = true →
  let o := Part000.send_verification cfg now token send email userId
                                     None vt in
  (verificationUrl_of <$> sent o)
    = Some (Some (FRONTEND_URL cfg +:+ "/verify?token=" +:+ token)) ∧
  (check now token (tokens o)).2 =
    ok [("success", JBool true);
        ("email", JStr (str email));
        ("verified", JBool false);
        ("expired", JBool false);
        ("expiresAt", JIsoDate (now + TTL))].
Proof.
  intros He. simpl.
  destruct (send_verification_mints cfg now token send email userId None vt
              He eq_refl) as [Ht Hs].
  simpl in Ht, Hs. rewrite Ht, Hs, check_minted; [|unfold TTL; lia].
  by split.
Qed.

(** ** Pass-through of action links *)

(** C1, as stated, fails: a [callbackUrl] on the Firebase host that carries
    neither marker is not passed through by [POST /api/send-verification];
    the handler appends a token to it, stores a record under the token, and
    a later verify of that token succeeds.  The welcome-purchase handler
    would have recognised the same link. *)
Lemma host_link_is_not_relayed :
  let o := Part000.send_verification default_config 0 uuid_a Completed
             (Some "x@y.com") None (Some host_link) ∅ in
  includes host_link "firebaseapp.com" = true ∧
  Part000.is_firebase_link (Some host_link) = true ∧
  sent o = Some (Msg "x@y.com" "noreply@drivecore.co.uk"
                     (VerifyEmail (host_link +:+ "?token=" +:+ uuid_a))) ∧
  tokens o !! uuid_a = Some (TokenData "x@y.com" None TTL false) ∧
  status (verify 1 uuid_a (tokens o)).2 = 200.
Proof. vm_compute. by repeat split. Qed.

(** C1 (amended): for every call of [POST /api/send-verification] with a
    non-empty email whose [callbackUrl] contains ['oobCode='] or
    ['mode=verifyEmail'], the link mailed is the supplied [callbackUrl]
    unchanged, no record is stored (the store is left as it was), and a
    subsequent verify of any token that was not stored before answers 404
    and leaves the store as it was. *)
Theorem action_link_is_relayed cfg now token send email userId url
    (vt : store) :
  truthy email = true →
  includes url "oobCode=" = true ∨ includes url "mode=verifyEmail" = true →
  let o := Part000.send_verification cfg now token send email userId
                                     (Some url) vt in
  (verificationUrl_of <$> sent o) = Some (Some url) ∧
  tokens o = vt ∧
  ∀ now' t, vt !! t = None →
    verify now' t (tokens o) =
      (vt, Response 404 [("success", JBool false);
                         ("error", JStr "Invalid or not found token")]).
Proof.
  intros He Hm.
  destruct (send_verification_relays cfg now token send email userId
              (Some url) vt He (action_link_present url Hm)) as [Ht Hs].
  simpl in *. rewrite Ht, Hs. repeat split.
  intros now' t Hnone. by apply verify_unknown.
Qed.

Lemma action_link_is_relayed_witness :
  let o := Part000.send_verification default_config 0 uuid_a Completed
             (Some "x@y.com") None (Some idp_link) ∅ in
  (verificationUrl_of <$> sent o) = Some (Some idp_link) ∧
  tokens o = ∅ ∧
  ∀ now' t, (∅ : store) !! t = None →
    verify now' t (tokens o) =
      (∅, Response 404 [("success", JBool false);
                        ("error", JStr "Invalid or not found token")]).
Proof.
  apply (action_link_is_relayed default_config 0 uuid_a Completed
           (Some "x@y.com") None idp_link ∅).
  - reflexivity.
  - left. vm_compute. reflexivity.
Defined.

(** The welcome-purchase handler relays on the host as well as on the two
    markers. *)
Lemma welcome_link_is_relayed cfg now token send email userId firstName
    planName planPrice vehicleName url (vt : store) :
  truthy email = true → truthy firstName = true →
  Part000.is_firebase_link (Some url) = true →
  let o := Part000.send_welcome_purchase cfg now token send email userId
             firstName planName planPrice vehicleName (Some url) vt in
  (verificationUrl_of <$> sent o) = Some (Some url) ∧ tokens o = vt.
Proof.
  intros He Hf Hl. unfold Part000.send_welcome_purchase, Part000.decide_url.
  rewrite He, Hf, Hl. simpl. by destruct send.
Qed.

(** ** Consuming a token *)

(** Two verifies of a stored, unverified record, neither after its expiry:
    the first succeeds and marks it, the second is refused. *)
Lemma verify_twice now1 now2 token td (vt : store) :
  vt !! token = Some td → verified td = false →
  now1 ≤ expiresAt td → now2 ≤ expiresAt td →
  verify now1 token vt =
    (<[token := set_verified td]> vt,
     ok [("success", JBool true);
         ("message", JStr "Email verified successfully!");
         ("email", JStr (email td));
         ("userId", json_of_field (userId td))]) ∧
  verify now2 token (<[token := set_verified td]> vt) =
    (<[token := set_verified td]> vt,
     Response 400 [("success", JBool false);
                   ("error", JStr "Email has already been verified")]).
Proof.
  intros Hl Hv H1 H2. split.
  - by apply verify_first.
  - apply (verify_again _ _ _ (set_verified td));
      [apply lookup_insert_eq|done|done].
Qed.

(** C2: a token minted by create and unexpired at both calls is consumed
    once: the first verify answers 200 with the email and the userId of the
    request, the second answers 400, already verified. *)
Theorem consume_is_not_idempotent cfg now0 token send email userId
    callbackUrl (vt : store) now1 now2 :
  truthy email = true → Part000.is_action_link callbackUrl = false →
  now1 ≤ now0 + TTL → now2 ≤ now0 + TTL →
  let vt0 := tokens (Part000.send_verification cfg now0 token send email
                       userId callbackUrl vt) in
  let first := verify now1 token vt0 in
  let second := verify now2 token first.1 in
  first.2 = ok [("success", JBool true);
                ("message", JStr "Email verified successfully!");
                ("email", JStr (str email));
                ("userId", json_of_field (or_null userId))] ∧
  second.2 = Response 400 [("success", JBool false);
                           ("error", JStr "Email has already been verified")] ∧
  second.1 = first.1.
Proof.
  intros He Hcb H1 H2.
  destruct (send_verification_mints cfg now0 token send email userId
              callbackUrl vt He Hcb) as [Ht _].
  simpl in *. rewrite Ht.
  destruct (verify_twice now1 now2 token
              (fresh_record (str email) userId now0)
              (<[token := fresh_record (str email) userId now0]> vt))
    as [Hf Hs]; [apply lookup_insert_eq|done|done|done|].
  rewrite Hf. simpl. by rewrite Hs.
Qed.

Lemma consume_is_not_idempotent_witness :
  let vt0 := tokens (Part000.send_verification default_config 0 uuid_a
                       Completed (Some "a@b.com") None None ∅) in
  let first := verify 1 uuid_a vt0 in
  let second := verify 2 uuid_a first.1 in
  first.2 = ok [("success", JBool true);
                ("message", JStr "Email verified successfully!");
                ("email", JStr "a@b.com");
                ("userId", JNull)] ∧
  second.2 = Response 400 [("success", JBool false);
                           ("error", JStr "Email has already been verified")] ∧
  second.1 = first.1.
Proof.
  apply (consume_is_not_idempotent default_config 0 uuid_a Completed
           (Some "a@b.com") None None ∅ 1 2).
  - reflexivity.
  - reflexivity.
  - unfold TTL. lia.
  - unfold TTL. lia.
Defined.

(** The same in server.js, where every create mints. *)
Lemma server_consume_is_not_idempotent cfg now0 token send email userId
    callbackUrl (vt : store) now1 now2 :
  truthy email = true → now1 ≤ now0 + TTL → now2 ≤ now0 + TTL →
  let vt0 := tokens (Server.send_verification cfg now0 token send email
                       userId callbackUrl vt) in
  status (verify now1 token vt0).2 = 200 ∧
  status (verify now2 token (verify now1 token vt0).1).2 = 400.
Proof.
  intros He H1 H2.
  destruct (server_send_verification_mints cfg now0 token send email userId
              callbackUrl vt He) as [Ht _].
  simpl in *. rewrite Ht.
  destruct (verify_twice now1 now2 token
              (fresh_record (str email) userId now0)
              (<[token := fresh_record (str email) userId now0]> vt))
    as [Hf Hs]; [apply lookup_insert_eq|done|done|done|].
  rewrite Hf. simpl. by rewrite Hs.
Qed.

(** ** Expiry *)

(** C3: a verify of a stored token after its expiry answers 410 and deletes
    the record; from then on check and verify of the token answer 404 and
    leave the store as it is, so every later one does too. *)
Theorem expired_token_is_evicted now token td (vt : store) :
  vt !! token = Some td → expiresAt td < now →
  verify now token vt =
    (delete token vt, Response 410 [("success", JBool false);
                                    ("error", JStr "Token has expired")]) ∧
  ∀ now',
    check now' token (delete token vt) =
      (delete token vt, Response 404 [("success", JBool false);
                                      ("error", JStr "Token not found")]) ∧
    verify now' token (delete token vt) =
      (delete token vt,
       Response 404 [("success", JBool false);
                     ("error", JStr "Invalid or not found token")]).
Proof.
  intros Hl Hlt. split; [by eapply verify_expired|].
  intros now'. split.
  - apply check_unknown, lookup_delete_eq.
  - apply verify_unknown, lookup_delete_eq.
Qed.

Lemma expired_token_is_evicted_witness :
  verify 1001 uuid_a pending_store =
    (delete uuid_a pending_store,
     Response 410 [("success", JBool false);
                   ("error", JStr "Token has expired")]) ∧
  ∀ now',
    check now' uuid_a (delete uuid_a pending_store) =
      (delete uuid_a pending_store,
       Response 404 [("success", JBool false);
                     ("error", JStr "Token not found")]) ∧
    verify now' uuid_a (delete uuid_a pending_store) =
      (delete uuid_a pending_store,
       Response 404 [("success", JBool false);
                     ("error", JStr "Invalid or not found token")]).
Proof.
  apply (expired_token_is_evicted 1001 uuid_a
           (TokenData "a@b.com" None 1000 false) pending_store).
  - reflexivity.
  - simpl. lia.
Defined.

(** C10: when a stored record is both verified and past its expiry, verify
    answers 410, not 400, and deletes it; the test of the expiry comes
    first on both routes. *)
Theorem expiry_precedes_verified now token td (vt : store) :
  vt !! token = Some td → verified td = true → expiresAt td < now →
  verify now token vt =
    (delete token vt, Response 410 [("success", JBool false);
                                    ("error", JStr "Token has expired")]) ∧
  (token ≠ "" →
   verify_post now (Some token) vt =
     (delete token vt, Response 410 [("success", JBool false);
                                     ("error", JStr "Token has expired")])) ∧
  delete token vt !! token = None.
Proof.
  intros Hl _ Hlt. split; [by eapply verify_expired|]. split.
  - intros Hne. rewrite verify_post_named by done. by eapply verify_expired.
  - apply lookup_delete_eq.
Qed.

Lemma expiry_precedes_verified_witness :
  verify 1001 uuid_a verified_store =
    (delete uuid_a verified_store,
     Response 410 [("success", JBool false);
                   ("error", JStr "Token has expired")]) ∧
  (uuid_a ≠ "" →
   verify_post 1001 (Some uuid_a) verified_store =
     (delete uuid_a verified_store,
      Response 410 [("success", JBool false);
                    ("error", JStr "Token has expired")])) ∧
  delete uuid_a verified_store !! uuid_a = None.
Proof.
  apply (expiry_precedes_verified 1001 uuid_a
           (TokenData "a@b.com" None 1000 true) verified_store).
  - reflexivity.
  - reflexivity.
  - simpl. lia.
Defined.

(** ** Inspection *)

(** C5: any number of checks of a token, at any times, leaves the store as
    it was, so a verify after them is the verify without them; a record
    past its expiry is reported expired and stays stored. *)
Theorem check_is_read_only nows token (vt : store) :
  checks nows token vt = vt ∧
  (∀ now, verify now token (checks nows token vt) = verify now token vt) ∧
  (∀ now td, vt !! token = Some td → expiresAt td < now →
     check now token vt =
       (vt, ok [("success", JBool true);
                ("email", JStr (email td));
                ("verified", JBool (verified td));
                ("expired", JBool true);
                ("expiresAt", JIsoDate (expiresAt td))])).
Proof.
  split; [apply checks_store|]. split.
  - intros now. by rewrite checks_store.
  - intros now td Hl Hlt. unfold check. rewrite Hl.
    by rewrite (proj2 (Z.ltb_lt _ _) Hlt).
Qed.

Lemma check_is_read_only_witness :
  checks [1; 2000; 3000] uuid_a pending_store = pending_store ∧
  check 2000 uuid_a pending_store =
    (pending_store, ok [("success", JBool true);
                        ("email", JStr "a@b.com");
                        ("verified", JBool false);
                        ("expired", JBool true);
                        ("expiresAt", JIsoDate 1000)]).
Proof.
  destruct (check_is_read_only [1; 2000; 3000] uuid_a pending_store)
    as (Hs & _ & He).
  split; [exact Hs|].
  apply (He 2000 (TokenData "a@b.com" None 1000 false)).
  - reflexivity.
  - simpl. lia.
Defined.

(** ** Revocation *)

(** C6: delete of an unknown token answers 404 and leaves the store; delete
    of a stored token, whatever its expiry and its verified flag, removes
    the record and answers 200, after which check and verify of the token
    answer 404 and leave the store as it is. *)
Theorem revoke_is_unconditional token (vt : store) :
  (vt !! token = None →
   delete_token token vt =
     (vt, Response 404 [("success", JBool false);
                        ("error", JStr "Token not found")])) ∧
  (∀ td, vt !! token = Some td →
   delete_token token vt =
     (delete token vt,
      ok [("success", JBool true); ("message", JStr "Token removed")]) ∧
   ∀ now,
     check now token (delete token vt) =
       (delete token vt, Response 404 [("success", JBool false);
                                       ("error", JStr "Token not found")]) ∧
     verify now token (delete token vt) =
       (delete token vt,
        Response 404 [("success", JBool false);
                      ("error", JStr "Invalid or not found token")])).
Proof.
  unfold delete_token. split.
  - intros Hl. rewrite bool_decide_eq_false_2; [done|].
    rewrite Hl. by intros [? ?].
  - intros td Hl. split.
    + rewrite bool_decide_eq_true_2; [done|by rewrite Hl].
    + intros now. split.
      * apply check_unknown, lookup_delete_eq.
      * apply verify_unknown, lookup_delete_eq.
Qed.

Lemma revoke_is_unconditional_witness :
  delete_token uuid_b verified_store =
    (verified_store, Response 404 [("success", JBool false);
                                   ("error", JStr "Token not found")]) ∧
  delete_token uuid_a verified_store =
    (delete uuid_a verified_store,
     ok [("success", JBool true); ("message", JStr "Token removed")]) ∧
  (verify 2000 uuid_a (delete uuid_a verified_store)).2 =
    Response 404 [("success", JBool false);
                  ("error", JStr "Invalid or not found token")].
Proof.
  destruct (revoke_is_unconditional uuid_b verified_store) as [Hnone _].
  destruct (revoke_is_unconditional uuid_a verified_store) as [_ Hsome].
  destruct (Hsome (TokenData "a@b.com" None 1000 true) eq_refl) as [Hd Hn].
  split; [apply Hnone; reflexivity|].
  split; [exact Hd|].
  destruct (Hn 2000) as [_ Hv]. rewrite Hv. reflexivity.
Defined.

(** ** Failure of the provider *)

(** C7: when the provider call of a minting create fails, the response is
    the 500 with the provider's message, and the record stored before the
    call is still in the store; a retry draws another token and stores a
    second record of the same form beside the first. *)
Theorem send_failure_keeps_record cfg now token message email userId
    callbackUrl (vt : store) :
  truthy email = true → Part000.is_action_link callbackUrl = false →
  let o := Part000.send_verification cfg now token (Thrown message) email
                                     userId callbackUrl vt in
  resp o = Response 500 [("success", JBool false);
                         ("error", JStr "Failed to send verification email");
                         ("details", JStr message)] ∧
  tokens o !! token = Some (fresh_record (str email) userId now) ∧
  ∀ now' token' send', token' ≠ token →
    let o' := Part000.send_verification cfg now' token' send' email userId
                                        callbackUrl (tokens o) in
    tokens o' !! token' = Some (fresh_record (str email) userId now') ∧
    tokens o' !! token = Some (fresh_record (str email) userId now).
Proof.
  intros He Hcb.
  destruct (send_verification_mints cfg now token (Thrown message) email
              userId callbackUrl vt He Hcb) as [Ht _].
  simpl in *. rewrite Ht. split; [|split].
  - unfold Part000.send_verification. rewrite He. simpl.
    by destruct (Part000.decide_url _ _ _ _ _ _ _ _).
  - apply lookup_insert_eq.
  - intros now' token' send' Hne.
    destruct (send_verification_mints cfg now' token' send' email userId
                callbackUrl
                (<[token := fresh_record (str email) userId now]> vt) He Hcb)
      as [Ht' _].
    simpl in Ht'. rewrite Ht'. split.
    + apply lookup_insert_eq.
    + rewrite lookup_insert_ne by done. apply lookup_insert_eq.
Qed.

Lemma send_failure_keeps_record_witness :
  let o := Part000.send_verification default_config 0 uuid_a
             (Thrown "Unauthorized") (Some "a@b.com") None None ∅ in
  resp o = Response 500 [("success", JBool false);
                         ("error", JStr "Failed to send verification email");
                         ("details", JStr "Unauthorized")] ∧
  tokens o !! uuid_a = Some (TokenData "a@b.com" None TTL false).
Proof.
  destruct (send_failure_keeps_record default_config 0 uuid_a "Unauthorized"
              (Some "a@b.com") None None ∅ eq_refl eq_refl) as (Hr & Ht & _).
  split; [exact Hr|exact Ht].
Defined.

(** The same in server.js. *)
Lemma server_send_failure_keeps_record cfg now token message email userId
    callbackUrl (vt : store) :
  truthy email = true →
  let o := Server.send_verification cfg now token (Thrown message) email
                                    userId callbackUrl vt in
  resp o = failed "Failed to send verification email" message ∧
  tokens o !! token = Some (fresh_record (str email) userId now).
Proof.
  intros He. unfold Server.send_verification. rewrite He. simpl.
  split; [done|apply lookup_insert_eq].
Qed.

(** ** The response of create *)

(** C4 at a plain request to part_000, the provider call succeeding: the
    link mailed and the record read back by check are as the claim says,
    but the response is the 500 of the [catch], with the engine's message
    for the unbound [token], and carries no token. *)
Theorem create_response_lacks_token :
  let o := Part000.send_verification default_config 0 uuid_a Completed
             (Some "a@b.com") None None ∅ in
  (verificationUrl_of <$> sent o)
    = Some (Some ("http://localhost:3000/verify?token=" +:+ uuid_a)) ∧
  (check 0 uuid_a (tokens o)).2 =
    ok [("success", JBool true);
        ("email", JStr "a@b.com");
        ("verified", JBool false);
        ("expired", JBool false);
        ("expiresAt", JIsoDate TTL)] ∧
  resp o = Response 500 [("success", JBool false);
                         ("error", JStr "Failed to send verification email");
                         ("details", JStr "token is not defined")] ∧
  get_key "token" (body (resp o)) = None.
Proof. vm_compute. by repeat split. Qed.

(** The welcome-purchase handler of part_000 names [token] out of scope in
    the same way. *)
Lemma welcome_unbound_token cfg now token email userId firstName planName
    planPrice vehicleName callbackUrl (vt : store) :
  truthy email = true → truthy firstName = true →
  resp (Part000.send_welcome_purchase cfg now token Completed email userId
          firstName planName planPrice vehicleName callbackUrl vt) =
    failed "Failed to send welcome email" "token is not defined".
Proof.
  intros He Hf. unfold Part000.send_welcome_purchase. rewrite He, Hf. simpl.
  by destruct (Part000.decide_url _ _ _ _ _ _ _ _).
Qed.

(** ** What a request does to the store *)

(** The writes of the service: a request leaves the store as it is, or
    stores an unverified record under the token it draws, or (verify)
    deletes a record or marks an unverified one, or (delete) deletes. *)
Lemma handle_effect cfg now r (vt : store) :
  (handle cfg now r vt).1 = vt ∨
  (∃ token td, minted r = Some token ∧ verified td = false ∧
     (handle cfg now r vt).1 = <[token := td]> vt) ∨
  (∃ token, (handle cfg now r vt).1 = delete token vt) ∨
  (∃ token td, (r = VerifyGet token ∨ r = VerifyPost (Some token)) ∧
     vt !! token = Some td ∧ verified td = false ∧
     (handle cfg now r vt).1 = <[token := set_verified td]> vt).
Proof.
  destruct r; simpl.
  - unfold Part000.send_verification, Part000.decide_url.
    destruct (truthy email0) eqn:He; simpl; [|by left].
    destruct (Part000.is_action_link callbackUrl) eqn:Hl;
      destruct send; simpl; solve [by left | stores_fresh].
  - unfold Part000.resend_verification, Part000.decide_url.
    destruct (truthy email0) eqn:He; simpl; [|by left].
    destruct (Part000.is_action_link callbackUrl) eqn:Hl;
      destruct send; simpl; solve [by left | stores_fresh].
  - left. unfold Part000.send_transfer_notification.
    repeat case_match; done.
  - unfold Part000.send_welcome_purchase, Part000.decide_url.
    destruct (truthy email0) eqn:He; simpl; [|by left].
    destruct (truthy firstName) eqn:Hf; simpl; [|by left].
    destruct (Part000.is_firebase_link callbackUrl) eqn:Hl;
      destruct send; simpl; solve [by left | stores_fresh].
  - left. unfold Part000.send_device_added. repeat case_match; done.
  - left. unfold Part000.send_invoice. repeat case_match; done.
  - unfold verify. destruct (vt !! token) as [td|] eqn:Hl; [|by left].
    destruct (expiresAt td <? now); [eauto 10|].
    destruct (verified td) eqn:Hv; [by left|].
    right; right; right. exists token, td. eauto.
  - unfold verify_post. destruct (truthy token) eqn:Ht; simpl; [|by left].
    destruct token as [token|]; [|done]. unfold str; simpl.
    unfold verify. destruct (vt !! token) as [td|] eqn:Hl; [|by left].
    destruct (expiresAt td <? now); [eauto 10|].
    destruct (verified td) eqn:Hv; [by left|].
    right; right; right. exists token, td. eauto.
  - left. apply check_store.
  - unfold delete_token. case_bool_decide; simpl; eauto 10.
  - by left.
Qed.

(** One request and one stored record: unless the request draws the
    record's own token, the record is afterwards gone, or as it was, or it
    was unverified and a verify of its token has marked it. *)
Lemma handle_record cfg now r (vt : store) t td :
  vt !! t = Some td → minted r ≠ Some t →
  (handle cfg now r vt).1 !! t = None ∨
  (handle cfg now r vt).1 !! t = Some td ∨
  (verified td = false ∧ (r = VerifyGet t ∨ r = VerifyPost (Some t)) ∧
   (handle cfg now r vt).1 !! t = Some (set_verified td)).
Proof.
  intros Hl Hm.
  destruct (handle_effect cfg now r vt)
    as [-> | [(tok & rec & Hmint & _ & ->)
           | [(tok & ->) | (tok & rec & Hr & Hrec & Hv & ->)]]].
  - by right; left.
  - right; left. rewrite lookup_insert_ne; [done|congruence].
  - destruct (decide (tok = t)) as [->|Hne].
    + left. apply lookup_delete_eq.
    + right; left. by rewrite lookup_delete_ne.
  - destruct (decide (tok = t)) as [->|Hne].
    + right; right. rewrite lookup_insert_eq.
      assert (rec = td) as -> by congruence. done.
    + right; left. by rewrite lookup_insert_ne.
Qed.

(** A token that was issued and is no longer stored stays out of the
    store: no fresh draw is that token. *)
Lemma run_absent cfg evs (vt : store) (used : gset string) t :
  t ∈ used → fresh_tokens used evs → vt !! t = None →
  run cfg evs vt !! t = None.
Proof.
  revert vt used. induction evs as [|[now r] evs IH]; intros vt used Hu Hf Hl;
    simpl in *; [done|].
  assert ((handle cfg now r vt).1 !! t = None) as Hstep.
  { destruct (handle_effect cfg now r vt)
      as [-> | [(tok & rec & Hmint & _ & ->)
             | [(tok & ->) | (tok & rec & _ & Hrec & _ & ->)]]].
    - done.
    - rewrite Hmint in Hf. destruct Hf as [Hfresh _].
      rewrite lookup_insert_ne; [done|]. intros ->. done.
    - destruct (decide (tok = t)) as [->|Hne];
        [apply lookup_delete_eq|by rewrite lookup_delete_ne].
    - rewrite lookup_insert_ne; [done|]. intros ->. congruence. }
  destruct (minted r) as [tok|] eqn:Hmint.
  - destruct Hf as [_ Hf]. apply (IH _ ({[tok]} ∪ used)); [by apply elem_of_union_r|done|done].
  - by apply (IH _ used).
Qed.

(** ** Monotonicity of the verified flag *)

(** C8: along any sequence of requests whose creates draw fresh tokens, a
    record that is verified is never written again: whenever its token is
    still stored later, it holds the very same record, with verified true.
    The one write to the flag of a stored record is the marking of an
    unverified record by verify ([handle_record]). *)
Theorem verified_never_reverts cfg evs (vt : store) (used : gset string)
    t td td' :
  dom vt ⊆ used → fresh_tokens used evs →
  vt !! t = Some td → verified td = true →
  run cfg evs vt !! t = Some td' →
  td' = td ∧ verified td' = true.
Proof.
  intros Hdom Hf Hl Hv.
  assert (t ∈ used) as Hu by (apply Hdom, elem_of_dom; eauto).
  clear Hdom. revert vt used Hu Hf Hl.
  induction evs as [|[now r] evs IH]; intros vt used Hu Hf Hl Hrun;
    simpl in *.
  - assert (td' = td) as -> by congruence. done.
  - assert (minted r ≠ Some t) as Hm.
    { intros Hm. rewrite Hm in Hf. by destruct Hf. }
    assert (∃ used', t ∈ used' ∧ fresh_tokens used' evs) as (used' & Hu' & Hf').
    { destruct (minted r) as [tok|].
      - exists ({[tok]} ∪ used). destruct Hf. split; [by apply elem_of_union_r|done].
      - by exists used. }
    destruct (handle_record cfg now r vt t td Hl Hm)
      as [Hgone | [Hsame | (Hfalse & _)]].
    + rewrite (run_absent cfg evs _ used' t Hu' Hf' Hgone) in Hrun. done.
    + by apply (IH (handle cfg now r vt).1 used').
    + congruence.
Qed.

Lemma verified_never_reverts_witness :
  run default_config sample_requests verified_store !! uuid_a
    = Some (TokenData "a@b.com" None 1000 true) ∧
  run default_config sample_requests verified_store !! uuid_b
    = Some (TokenData "x@y.com" None (30 + TTL) false) ∧
  (TokenData "a@b.com" None 1000 true = TokenData "a@b.com" None 1000 true ∧
   verified (TokenData "a@b.com" None 1000 true) = true).
Proof.
  split; [vm_compute; reflexivity|]. split; [vm_compute; reflexivity|].
  apply (verified_never_reverts default_config sample_requests verified_store
           {[uuid_a]} uuid_a (TokenData "a@b.com" None 1000 true)
           (TokenData "a@b.com" None 1000 true)).
  - unfold verified_store. rewrite dom_singleton_L. done.
  - simpl. split; [|done].
    intros H. apply elem_of_singleton in H. discriminate H.
  - reflexivity.
  - reflexivity.
  - vm_compute. reflexivity.
Defined.

(** ** The shape of the responses *)

(** C9, as stated, fails at [GET /health]: its body has the keys [status],
    [timestamp] and [tokensInMemory], and no [success]. *)
Lemma health_carries_no_success :
  (handle default_config 0 Health ∅).2 =
    ok [("status", JStr "ok"); ("timestamp", JIsoDate 0);
        ("tokensInMemory", JNum 0)] ∧
  ¬ carries_success (handle default_config 0 Health ∅).2.
Proof.
  split; [reflexivity|]. intros [b Hb]. vm_compute in Hb. discriminate Hb.
Qed.

(** C9 (amended): every response of every route other than [GET /health]
    carries a [success] boolean, and every response that is not a 200 has
    the shape [{success:false, error}] or [{success:false, error, details}];
    [GET /health] always answers 200 with [status], [timestamp] and
    [tokensInMemory]. *)
Theorem responses_are_uniform cfg now r (vt : store) :
  (r ≠ Health → carries_success (handle cfg now r vt).2) ∧
  (status (handle cfg now r vt).2 ≠ 200 →
   error_shape (handle cfg now r vt).2) ∧
  (r = Health →
   (handle cfg now r vt).2 =
     ok [("status", JStr "ok"); ("timestamp", JIsoDate now);
         ("tokensInMemory", JNum (Z.of_nat (size vt)))]).
Proof.
  unfold carries_success, error_shape.
  destruct r; simpl;
    unfold Part000.send_verification, Part000.resend_verification,
      Part000.send_transfer_notification, Part000.send_welcome_purchase,
      Part000.send_device_added, Part000.send_invoice,
      verify_post, verify, check, delete_token, health,
      ident, failed, bad_request, ok;
    response_cases.
Qed.

Lemma responses_are_uniform_witness :
  carries_success (handle default_config 2000 (VerifyGet uuid_a)
                          pending_store).2 ∧
  error_shape (handle default_config 2000 (VerifyGet uuid_a)
                      pending_store).2.
Proof.
  destruct (responses_are_uniform default_config 2000 (VerifyGet uuid_a)
              pending_store) as (Hs & He & _).
  split.
  - apply Hs. discriminate.
  - apply He. vm_compute. discriminate.
Defined.

(** The routes of server.js answer in the same way. *)
Lemma server_responses_are_uniform cfg now r (vt : store) vt' res :
  handle_server cfg now r vt = Some (vt', res) →
  (r ≠ Health → carries_success res) ∧
  (status res ≠ 200 → error_shape res).
Proof.
  unfold carries_success, error_shape.
  destruct r; simpl; try discriminate;
    intros Heq; apply (f_equal (option_map snd)) in Heq; simpl in Heq;
    injection Heq as <-;
    unfold of_outcome, Server.send_verification,
      verify_post, verify, check, delete_token, health,
      ident, failed, bad_request, ok;
    response_cases.
Qed.

(** * Further properties of the handlers *)

(** ** Field checks and the provider *)


(** X1: a mail route that answers 400 has handed nothing to the provider
    and has left the store as it was. *)
Theorem rejected_request_has_no_effect cfg now r (vt : store) o :
  mail_outcome cfg now r vt = Some o → status (resp o) = 400 →
  sent o = None ∧ tokens o = vt.
Proof.
  destruct r; simpl; try discriminate; intros [= <-];
    unfold Part000.send_verification, Part000.resend_verification,
      Part000.send_transfer_notification, Part000.send_welcome_purchase,
      Part000.send_device_added, Part000.send_invoice, ident;
    repeat case_match; simpl; done.
Qed.

Lemma rejected_request_has_no_effect_witness :
  let o := Part000.send_invoice default_config Completed (Some "a@b.com")
             (Some "in_1") None (Some "https://pay/in_1") None pending_store in
  status (resp o) = 400 ∧ sent o = None ∧ tokens o = pending_store.
Proof.
  split; [reflexivity|].
  apply (rejected_request_has_no_effect default_config 0
           (SendInvoice Completed (Some "a@b.com") (Some "in_1") None
                        (Some "https://pay/in_1") None) pending_store).
  - reflexivity.
  - reflexivity.
Defined.



(** X3: in part_000 neither [POST /api/send-verification] nor
    [POST /api/send-welcome-purchase] ever answers 200; when the fields are
    there and the provider call completes, the message has been handed over
    and the answer is still the 500 of the [catch]. *)
Theorem part000_create_never_answers_200 cfg now token send
    email userId firstName planName planPrice vehicleName callbackUrl
    (vt : store) :
  let o := Part000.send_verification cfg now token send email userId
                                     callbackUrl vt in
  let w := Part000.send_welcome_purchase cfg now token send email userId
             firstName planName planPrice vehicleName callbackUrl vt in
  status (resp o) ≠ 200 ∧ status (resp w) ≠ 200 ∧
  (truthy email = true → send = Completed →
   sent o ≠ None ∧ status (resp o) = 500).
Proof.
  unfold Part000.send_verification, Part000.send_welcome_purchase, ident.
  split; [|split].
  - repeat case_match; simpl; done.
  - repeat case_match; simpl; done.
  - intros -> ->. simpl. by destruct (Part000.decide_url _ _ _ _ _ _ _ _).
Qed.

Lemma part000_create_never_answers_200_witness :
  let o := Part000.send_verification default_config 0 uuid_a Completed
             (Some "a@b.com") None None ∅ in
  sent o ≠ None ∧ status (resp o) = 500.
Proof.
  destruct (part000_create_never_answers_200 default_config 0 uuid_a
              Completed (Some "a@b.com") None None None None None None ∅)
    as (_ & _ & H).
  apply H; reflexivity.
Defined.

(** ** Which requests write, and where *)

(** The record a request that draws a token leaves under it. *)
Lemma minted_stores cfg now r (vt : store) t :
  minted r = Some t →
  ∃ e u, (handle cfg now r vt).1 = <[t := fresh_record e u now]> vt.
Proof.
  destruct r; simpl; try discriminate.
  - unfold Part000.send_verification, Part000.decide_url.
    destruct (truthy email0); simpl; [|discriminate].
    destruct (Part000.is_action_link callbackUrl); simpl; [discriminate|].
    intros [= <-]. destruct send; simpl; eauto.
  - unfold Part000.resend_verification, Part000.decide_url.
    destruct (truthy email0); simpl; [|discriminate].
    destruct (Part000.is_action_link callbackUrl); simpl; [discriminate|].
    intros [= <-]. destruct send; simpl; eauto.
  - unfold Part000.send_welcome_purchase, Part000.decide_url.
    destruct (truthy email0); simpl; [|discriminate].
    destruct (truthy firstName); simpl; [|discriminate].
    destruct (Part000.is_firebase_link callbackUrl); simpl; [discriminate|].
    intros [= <-]. destruct send; simpl; eauto.
Qed.

(** A mail route that draws no token leaves the store as it was. *)
Lemma mail_without_mint cfg now r (vt : store) o :
  mail_outcome cfg now r vt = Some o → minted r = None → tokens o = vt.
Proof.
  destruct r; simpl; try discriminate; intros [= <-] Hm.
  - unfold Part000.send_verification, Part000.decide_url.
    destruct (truthy email0); simpl in *; [|done].
    destruct (Part000.is_action_link callbackUrl); simpl in *; [|done].
    by destruct send.
  - unfold Part000.resend_verification, Part000.decide_url.
    destruct (truthy email0); simpl in *; [|done].
    destruct (Part000.is_action_link callbackUrl); simpl in *; [|done].
    by destruct send.
  - unfold Part000.send_transfer_notification. repeat case_match; done.
  - unfold Part000.send_welcome_purchase, Part000.decide_url.
    destruct (truthy email0); simpl in *; [|done].
    destruct (truthy firstName); simpl in *; [|done].
    destruct (Part000.is_firebase_link callbackUrl); simpl in *; [|done].
    by destruct send.
  - unfold Part000.send_device_added. repeat case_match; done.
  - unfold Part000.send_invoice. repeat case_match; done.
Qed.

(** X4: only a create that draws a token, a verify and a delete write to the
    store; every other request (a create that is rejected or relays a
    ready-made link, the transfer, device-added and invoice mails, check,
    health) leaves it as it was. *)
Theorem other_requests_leave_the_store cfg now r (vt : store) :
  minted r = None →
  (∀ t, r ≠ VerifyGet t) → (∀ t, r ≠ VerifyPost t) →
  (∀ t, r ≠ DeleteToken t) →
  (handle cfg now r vt).1 = vt.
Proof.
  intros Hm Hg Hp Hd.
  destruct r; try (exfalso; by eapply Hg); try (exfalso; by eapply Hp);
    try (exfalso; by eapply Hd);
    try (match goal with
         | |- (handle _ _ ?r _).1 = _ =>
             by apply (mail_without_mint cfg now r vt _ eq_refl Hm)
         end).
  - apply check_store.
  - done.
Qed.

Lemma other_requests_leave_the_store_witness :
  (handle default_config 0
     (SendWelcomePurchase uuid_b Completed (Some "x@y.com") None (Some "Ann")
        None None None (Some host_link)) pending_store).1 = pending_store.
Proof.
  apply other_requests_leave_the_store.
  - reflexivity.
  - intros t. discriminate.
  - intros t. discriminate.
  - intros t. discriminate.
Defined.

(** X5: a token that is stored after a request and was not stored before it
    is the token the request's create drew; verify, check, delete and the
    other mails never add a key. *)
Theorem new_key_is_the_drawn_token cfg now r (vt : store) t :
  vt !! t = None → is_Some ((handle cfg now r vt).1 !! t) →
  minted r = Some t.
Proof.
  intros Hnone Hsome.
  destruct (handle_effect cfg now r vt)
    as [H | [(tok & rec & Hmint & _ & H)
         | [(tok & H) | (tok & rec & _ & Hrec & _ & H)]]];
    rewrite H in Hsome.
  - rewrite Hnone in Hsome. by destruct Hsome.
  - destruct (decide (tok = t)) as [->|Hne]; [done|].
    rewrite lookup_insert_ne, Hnone in Hsome by done. by destruct Hsome.
  - destruct (decide (tok = t)) as [->|Hne].
    + rewrite lookup_delete_eq in Hsome. by destruct Hsome.
    + rewrite lookup_delete_ne, Hnone in Hsome by done. by destruct Hsome.
  - destruct (decide (tok = t)) as [->|Hne]; [congruence|].
    rewrite lookup_insert_ne, Hnone in Hsome by done. by destruct Hsome.
Qed.

Lemma new_key_is_the_drawn_token_witness :
  minted (SendVerification uuid_b Completed (Some "x@y.com") None None)
    = Some uuid_b.
Proof.
  apply (new_key_is_the_drawn_token default_config 30
           (SendVerification uuid_b Completed (Some "x@y.com") None None)
           pending_store uuid_b).
  - reflexivity.
  - vm_compute. eauto.
Defined.

(** X6: a request leaves alone every token other than the one it is about
    (the token of its path or body, or the one it draws): whatever it
    answers, the records of the other tokens are as they were. *)
Theorem other_tokens_are_untouched cfg now r (vt : store) t :
  target r ≠ Some t → (handle cfg now r vt).1 !! t = vt !! t.
Proof.
  intros Ht.
  destruct (minted r) as [tok|] eqn:Hm.
  - destruct (minted_stores cfg now r vt tok Hm) as (e & u & ->).
    apply lookup_insert_ne. intros ->.
    destruct r; simpl in *; try discriminate; congruence.
  - destruct r; simpl in Ht;
      try done;
      try (simpl; by rewrite check_store);
      try (match goal with
           | |- (handle _ _ ?r _).1 !! _ = _ =>
               simpl; by rewrite (mail_without_mint cfg now r vt _ eq_refl Hm)
           end).
    + simpl. unfold verify. repeat case_match; simpl; try done.
      * apply lookup_delete_ne. congruence.
      * apply lookup_insert_ne. congruence.
    + simpl. unfold verify_post, verify. destruct token as [token|]; simpl;
        repeat case_match; simpl; try done.
      * apply lookup_delete_ne. congruence.
      * apply lookup_insert_ne. congruence.
    + simpl. unfold delete_token. case_bool_decide; simpl; [|done].
      apply lookup_delete_ne. congruence.
Qed.

Lemma other_tokens_are_untouched_witness :
  (handle default_config 2000 (VerifyGet uuid_b)
     (<[uuid_b := TokenData "x@y.com" None 1000 false]> pending_store)).1
    !! uuid_a
  = (<[uuid_b := TokenData "x@y.com" None 1000 false]> pending_store)
    !! uuid_a.
Proof.
  apply other_tokens_are_untouched. simpl. discriminate.
Defined.

(** ** Expiry, check and verify *)

(** X7: a token lives through the last millisecond of its 24 hours: a
    verify exactly [24 * 60 * 60 * 1000] ms after the create still succeeds,
    one millisecond later it is answered 410 (the test is [now > expiresAt],
    strict). *)
Theorem token_lives_through_its_expiry cfg now0 token send email userId
    callbackUrl (vt : store) :
  truthy email = true → Part000.is_action_link callbackUrl = false →
  let vt0 := tokens (Part000.send_verification cfg now0 token send email
                       userId callbackUrl vt) in
  status (verify (now0 + 86400000) token vt0).2 = 200 ∧
  status (verify (now0 + 86400000 + 1) token vt0).2 = 410 ∧
  get_key "expired" (body (check (now0 + 86400000) token vt0).2)
    = Some (JBool false).
Proof.
  intros He Hcb.
  destruct (send_verification_mints cfg now0 token send email userId
              callbackUrl vt He Hcb) as [Ht _].
  simpl in *. rewrite Ht. change 86400000 with TTL.
  split; [|split].
  - erewrite verify_first; [done|apply lookup_insert_eq|simpl; lia|done].
  - erewrite verify_expired; [done|apply lookup_insert_eq|simpl; lia].
  - rewrite check_minted by lia. done.
Qed.

Lemma token_lives_through_its_expiry_witness :
  let vt0 := tokens (Part000.send_verification default_config 5 uuid_a
                       Completed (Some "a@b.com") None None ∅) in
  status (verify 86400005 uuid_a vt0).2 = 200 ∧
  status (verify 86400006 uuid_a vt0).2 = 410 ∧
  get_key "expired" (body (check 86400005 uuid_a vt0).2) = Some (JBool false).
Proof.
  apply (token_lives_through_its_expiry default_config 5 uuid_a Completed
           (Some "a@b.com") None None ∅); reflexivity.
Defined.

(** X8: check announces what a verify at the same time would answer: 404
    when check answers 404, 410 when it reports [expired], 400 when it
    reports [verified] and not [expired], 200 otherwise. *)
Theorem check_announces_verify now token (vt : store) :
  status (verify now token vt).2 = announced (check now token vt).2.
Proof.
  unfold verify, check, announced.
  destruct (vt !! token) as [td|]; [|done]. simpl.
  destruct (expiresAt td <? now); [done|].
  by destruct (verified td).
Qed.

(** X9: a successful verify changes the flag alone: a check after it reads
    the same email and expiry, with [verified] true. *)
Theorem verified_record_reads_back now1 now2 token td (vt : store) :
  vt !! token = Some td → verified td = false → now1 ≤ expiresAt td →
  (check now2 token (verify now1 token vt).1).2 =
    ok [("success", JBool true);
        ("email", JStr (email td));
        ("verified", JBool true);
        ("expired", JBool (expiresAt td <? now2));
        ("expiresAt", JIsoDate (expiresAt td))].
Proof.
  intros Hl Hv Hle. erewrite verify_first by done. simpl.
  unfold check. by rewrite lookup_insert_eq.
Qed.

Lemma verified_record_reads_back_witness :
  (check 30 uuid_a (verify 20 uuid_a pending_store).1).2 =
    ok [("success", JBool true);
        ("email", JStr "a@b.com");
        ("verified", JBool true);
        ("expired", JBool false);
        ("expiresAt", JIsoDate 1000)].
Proof.
  apply (verified_record_reads_back 20 30 uuid_a
           (TokenData "a@b.com" None 1000 false) pending_store).
  - reflexivity.
  - reflexivity.
  - simpl. lia.
Defined.

(** ** The store as a map *)

(** X10: the store does not check that a drawn token is new: a create
    whose uuid is already stored replaces the record, a verified one
    included, by an unverified record of the new request, and the number of
    tokens stays the same. *)
Theorem colliding_token_replaces_record cfg now token send email userId
    callbackUrl (vt : store) td :
  vt !! token = Some td →
  truthy email = true → Part000.is_action_link callbackUrl = false →
  let o := Part000.send_verification cfg now token send email userId
                                     callbackUrl vt in
  tokens o !! token = Some (fresh_record (str email) userId now) ∧
  verified <$> (tokens o !! token) = Some false ∧
  size (tokens o) = size vt.
Proof.
  intros Hl He Hcb.
  destruct (send_verification_mints cfg now token send email userId
              callbackUrl vt He Hcb) as [Ht _].
  simpl in *. rewrite Ht, lookup_insert_eq. repeat split.
  rewrite <- (insert_delete_id vt token td) at 2 by done.
  rewrite <- (insert_delete_eq vt).
  rewrite !map_size_insert_None by apply lookup_delete_eq. done.
Qed.

Lemma colliding_token_replaces_record_witness :
  let o := Part000.send_verification default_config 0 uuid_a Completed
             (Some "x@y.com") None None verified_store in
  tokens o !! uuid_a = Some (TokenData "x@y.com" None TTL false) ∧
  verified <$> (tokens o !! uuid_a) = Some false ∧
  size (tokens o) = size verified_store.
Proof.
  apply (colliding_token_replaces_record default_config 0 uuid_a Completed
           (Some "x@y.com") None None verified_store
           (TokenData "a@b.com" None 1000 true)); reflexivity.
Defined.

(** X11: [tokensInMemory] of [GET /health] is the number of stored
    records: a create that draws a fresh token raises it by one, the delete
    of a stored token and the verify of an expired one lower it by one, and
    a successful verify leaves it. *)
Theorem health_counts_the_records cfg now now' r (vt : store) t td :
  (minted r = Some t → vt !! t = None →
   tokensInMemory now' (handle cfg now r vt).1
     = Some (JNum (Z.of_nat (size vt) + 1))) ∧
  (vt !! t = Some td →
   tokensInMemory now' (delete_token t vt).1
     = Some (JNum (Z.of_nat (size vt) - 1))) ∧
  (vt !! t = Some td → expiresAt td < now →
   tokensInMemory now' (verify now t vt).1
     = Some (JNum (Z.of_nat (size vt) - 1))) ∧
  (vt !! t = Some td → now ≤ expiresAt td →
   tokensInMemory now' (verify now t vt).1 = Some (JNum (Z.of_nat (size vt)))).
Proof.
  unfold tokensInMemory, health. simpl.
  assert (∀ td, vt !! t = Some td →
            Z.of_nat (size (delete t vt)) = Z.of_nat (size vt) - 1) as Hdel.
  { intros td0 Hl. rewrite <- (insert_delete_id vt t td0) at 2 by done.
    rewrite map_size_insert_None by apply lookup_delete_eq. lia. }
  repeat split.
  - intros Hm Hnone.
    destruct (minted_stores cfg now r vt t Hm) as (e & u & ->).
    rewrite map_size_insert_None by done. do 2 f_equal. lia.
  - intros Hl. unfold delete_token.
    rewrite bool_decide_eq_true_2 by (by rewrite Hl). simpl.
    by rewrite (Hdel td).
  - intros Hl Hlt. erewrite verify_expired by done. simpl.
    by rewrite (Hdel td).
  - intros Hl Hle. unfold verify. rewrite Hl.
    rewrite (proj2 (Z.ltb_ge _ _) Hle).
    destruct (verified td); simpl; [done|].
    rewrite <- (insert_delete_id vt t td) at 2 by done.
    rewrite <- (insert_delete_eq vt).
    rewrite !map_size_insert_None by apply lookup_delete_eq. done.
Qed.

Lemma health_counts_the_records_witness :
  tokensInMemory 0
    (handle default_config 30
       (SendVerification uuid_b Completed (Some "x@y.com") None None)
       pending_store).1 = Some (JNum 2) ∧
  tokensInMemory 0 (delete_token uuid_a pending_store).1 = Some (JNum 0) ∧
  tokensInMemory 0 (verify 2000 uuid_a pending_store).1 = Some (JNum 0) ∧
  tokensInMemory 0 (verify 20 uuid_a pending_store).1 = Some (JNum 1).
Proof.
  destruct (health_counts_the_records default_config 30 0
              (SendVerification uuid_b Completed (Some "x@y.com") None None)
              pending_store uuid_b (TokenData "a@b.com" None 1000 false))
    as (Hmint & _).
  destruct (health_counts_the_records default_config 2000 0 Health
              pending_store uuid_a (TokenData "a@b.com" None 1000 false))
    as (_ & Hdel & Hexp & _).
  destruct (health_counts_the_records default_config 20 0 Health
              pending_store uuid_a (TokenData "a@b.com" None 1000 false))
    as (_ & _ & _ & Hok).
  split; [apply Hmint; reflexivity|].
  split; [apply Hdel; reflexivity|].
  split; [apply Hexp; [reflexivity|simpl; lia]|].
  apply Hok; [reflexivity|simpl; lia].
Defined.

(** ** The test of the link *)

Lemma append_cons c a b : String c a +:+ b = String c (a +:+ b).
Proof. reflexivity. Qed.

Lemma append_nil b : "" +:+ b = b.
Proof. reflexivity. Qed.

Lemma prefix_spec a s :
  String.prefix a s = true ↔ ∃ post, s = a +:+ post.
Proof.
  revert s. induction a as [|c a IH]; intros s.
  - split; [by exists s|by destruct s].
  - destruct s as [|c' s]; simpl.
    + split; [done|]. intros [post Hp]. by rewrite append_cons in Hp.
    + destruct (Ascii.ascii_dec c c') as [->|Hne].
      * rewrite IH. split; intros [post Hp]; exists post;
          rewrite append_cons in *; congruence.
      * split; [done|]. intros [post Hp]. rewrite append_cons in Hp.
        congruence.
Qed.

Lemma includes_cons c s sub :
  includes (String c s) sub = String.prefix sub (String c s) || includes s sub.
Proof. reflexivity. Qed.

Lemma includes_spec s sub :
  includes s sub = true ↔ ∃ pre post, s = pre +:+ sub +:+ post.
Proof.
  split.
  - induction s as [|c s IH]; intros H.
    + change (includes "" sub) with (String.prefix sub "" || false) in H.
      rewrite orb_false_r in H.
      apply prefix_spec in H as [post ->]. by exists "", post.
    + rewrite includes_cons in H. apply orb_true_iff in H as [H|H].
      * apply prefix_spec in H as [post ->]. by exists "", post.
      * destruct (IH H) as (pre & post & ->). by exists (String c pre), post.
  - intros (pre & post & ->). induction pre as [|c pre IH].
    + rewrite append_nil.
      assert (String.prefix sub (sub +:+ post) = true) as Hp
        by (apply prefix_spec; eauto).
      destruct (sub +:+ post); simpl in *; by rewrite Hp.
    + rewrite append_cons, includes_cons, IH. apply orb_true_r.
Qed.

(** X12: [POST /api/send-verification] and [POST /api/resend-verification]
    relay the link exactly when [callbackUrl] has ['oobCode='] or
    ['mode=verifyEmail'] somewhere in it, whatever stands before and after;
    an absent or empty [callbackUrl] is never relayed. *)
Theorem action_link_iff_marker (callbackUrl : field) :
  Part000.is_action_link callbackUrl = true ↔
  ∃ pre post,
    callbackUrl = Some (pre +:+ "oobCode=" +:+ post) ∨
    callbackUrl = Some (pre +:+ "mode=verifyEmail" +:+ post).
Proof.
  split.
  - unfold Part000.is_action_link. intros H.
    apply andb_true_iff in H as [Ht H].
    destruct callbackUrl as [url|]; [|done]. simpl in H.
    apply orb_true_iff in H as [H|H];
      apply includes_spec in H as (pre & post & ->); exists pre, post; eauto.
  - intros (pre & post & [-> | ->]); apply action_link_present;
      [left|right]; apply includes_spec; eauto.
Qed.

(** X13: the welcome-purchase route relays every link the verification
    routes relay and, beyond them, every link with ['firebaseapp.com'] in
    it: the link is mailed unchanged and the store is left as it was. *)
Theorem welcome_relays_host_and_markers cfg now token send email userId
    firstName planName planPrice vehicleName url (vt : store) :
  truthy email = true → truthy firstName = true →
  Part000.is_action_link (Some url) = true
  ∨ includes url "firebaseapp.com" = true →
  let o := Part000.send_welcome_purchase cfg now token send email userId
             firstName planName planPrice vehicleName (Some url) vt in
  (verificationUrl_of <$> sent o) = Some (Some url) ∧ tokens o = vt.
Proof.
  intros He Hf Hl. apply welcome_link_is_relayed; [done|done|].
  destruct Hl as [Hl|Hl].
  - unfold Part000.is_action_link in Hl.
    apply andb_true_iff in Hl as [Ht Hl].
    unfold Part000.is_firebase_link. rewrite Ht. simpl in *.
    apply orb_true_iff in Hl as [-> | ->]; [done|by rewrite !orb_true_r].
  - assert (truthy (Some url) = true) as Ht.
    { simpl. destruct (String.eqb_spec url "") as [->|_]; [|done].
      by rewrite includes_empty in Hl. }
    unfold Part000.is_firebase_link. rewrite Ht. simpl.
    by rewrite Hl, orb_true_r.
Qed.

Lemma welcome_relays_host_and_markers_witness :
  let o := Part000.send_welcome_purchase default_config 0 uuid_a Completed
             (Some "x@y.com") None (Some "Ann") None None None
             (Some host_link) pending_store in
  (verificationUrl_of <$> sent o) = Some (Some host_link) ∧
  tokens o = pending_store.
Proof.
  apply (welcome_relays_host_and_markers default_config 0 uuid_a Completed
           (Some "x@y.com") None (Some "Ann") None None None host_link
           pending_store).
  - reflexivity.
  - reflexivity.
  - right. vm_compute. reflexivity.
Defined.

(** X14: [POST /api/resend-verification] decides as
    [POST /api/send-verification] does: on the same request the two leave
    the same store and mail the same link; unlike it, the resend answers 200
    when the provider call completes, and its body names no token. *)
Theorem resend_decides_as_send cfg now token send email userId callbackUrl
    (vt : store) :
  let o := Part000.send_verification cfg now token send email userId
                                     callbackUrl vt in
  let o' := Part000.resend_verification cfg now token send email userId
                                        callbackUrl vt in
  tokens o' = tokens o ∧
  (verificationUrl_of <$> sent o') = (verificationUrl_of <$> sent o) ∧
  (truthy email = true → send = Completed →
   resp o' = ok [("success", JBool true);
                 ("message", JStr "Verification email resent successfully")]).
Proof.
  unfold Part000.send_verification, Part000.resend_verification, ident.
  destruct (truthy email); simpl; [|done].
  destruct (Part000.decide_url _ _ _ _ _ _ _ _) as [vt' url].
  destruct send; simpl; repeat split; done.
Qed.

Lemma resend_decides_as_send_witness :
  resp (Part000.resend_verification default_config 0 uuid_a Completed
          (Some "a@b.com") None None ∅) =
    ok [("success", JBool true);
        ("message", JStr "Verification email resent successfully")].
Proof.
  destruct (resend_decides_as_send default_config 0 uuid_a Completed
              (Some "a@b.com") None None ∅) as (_ & _ & H).
  apply H; reflexivity.
Defined.

(** ** Status codes *)

(** X15: every route other than [GET /health] answers 200, 400, 404, 410
    or 500, and its [success] field is [true] exactly when the status is
    200. *)
Theorem success_iff_200 cfg now r (vt : store) :
  r ≠ Health →
  (status (handle cfg now r vt).2 ∈ [200; 400; 404; 410; 500]) ∧
  (get_key "success" (body (handle cfg now r vt).2) = Some (JBool true)
   ↔ status (handle cfg now r vt).2 = 200).
Proof.
  intros Hr. destruct r; [..|done]; simpl;
    unfold Part000.send_verification, Part000.resend_verification,
      Part000.send_transfer_notification, Part000.send_welcome_purchase,
      Part000.send_device_added, Part000.send_invoice,
      verify_post, verify, check, delete_token,
      ident, failed, bad_request, ok;
    repeat case_match; simpl;
    (split; [set_solver|split; intros; congruence]).
Qed.

Lemma success_iff_200_witness :
  (status (handle default_config 2000 (Check uuid_b) pending_store).2
     ∈ [200; 400; 404; 410; 500]) ∧
  (get_key "success"
     (body (handle default_config 2000 (Check uuid_b) pending_store).2)
     = Some (JBool true)
   ↔ status (handle default_config 2000 (Check uuid_b) pending_store).2
     = 200).
Proof.
  apply (success_iff_200 default_config 2000 (Check uuid_b) pending_store).
  discriminate.
Defined.

(** ** The creates of server.js and of part_001 *)

(** X16: server.js knows no ready-made links: every create with an email
    stores a record under the token it draws and mails [callbackUrl] with
    ['?token='] and the token appended, whatever [callbackUrl] holds, an
    action link included; when the provider call completes it answers 200
    with the token. *)
Theorem server_never_relays cfg now token send email userId url (vt : store) :
  truthy email = true → url ≠ "" →
  let o := Server.send_verification cfg now token send email userId
                                    (Some url) vt in
  tokens o !! token = Some (fresh_record (str email) userId now) ∧
  (verificationUrl_of <$> sent o)
    = Some (Some (url +:+ "?token=" +:+ token)) ∧
  (send = Completed →
   resp o = ok [("success", JBool true);
                ("message", JStr "Verification email sent successfully");
                ("token", JStr token)]).
Proof.
  intros He Hu.
  destruct (server_send_verification_mints cfg now token send email userId
              (Some url) vt He) as [Ht Hs].
  simpl in *. rewrite Ht, Hs, lookup_insert_eq. simpl.
  unfold token_url. simpl. destruct (String.eqb_spec url "") as [?|_]; [done|].
  simpl. repeat split. intros ->.
  by rewrite server_send_verification_ok.
Qed.

Lemma server_never_relays_witness :
  let o := Server.send_verification default_config 0 uuid_a Completed
             (Some "x@y.com") None (Some idp_link) ∅ in
  tokens o !! uuid_a = Some (TokenData "x@y.com" None TTL false) ∧
  (verificationUrl_of <$> sent o)
    = Some (Some (idp_link +:+ "?token=" +:+ uuid_a)).
Proof.
  destruct (server_never_relays default_config 0 uuid_a Completed
              (Some "x@y.com") None idp_link ∅) as (Ht & Hs & _).
  - reflexivity.
  - discriminate.
  - split; [exact Ht|exact Hs].
Defined.

Lemma server_round_trip_witness :
  let o := Server.send_verification default_config 0 uuid_a Completed
             (Some "a@b.com") None None ∅ in
  (verificationUrl_of <$> sent o)
    = Some (Some ("http://localhost:3000/verify?token=" +:+ uuid_a)) ∧
  status (resp o) = 200 ∧
  get_key "token" (body (resp o)) = Some (JStr uuid_a) ∧
  (check 0 uuid_a (tokens o)).2 =
    ok [("success", JBool true);
        ("email", JStr "a@b.com");
        ("verified", JBool false);
        ("expired", JBool false);
        ("expiresAt", JIsoDate TTL)].
Proof.
  apply (server_round_trip default_config 0 uuid_a (Some "a@b.com") None ∅).
  reflexivity.
Defined.

(** X18: the welcome-purchase route of part_001 always mints: with email
    and firstName there, it stores a record under the drawn token and mails
    the link with the token, whatever [callbackUrl] holds; when the provider
    call completes it answers 200 with the token, and a check of the token
    reads the record back. *)
Theorem part001_welcome_round_trip cfg now token send email userId firstName
    planName planPrice vehicleName callbackUrl (vt : store) :
  truthy email = true → truthy firstName = true →
  let o := Part001.send_welcome_purchase cfg now token send email userId
             firstName planName planPrice vehicleName callbackUrl vt in
  tokens o = <[token := fresh_record (str email) userId now]> vt ∧
  (verificationUrl_of <$> sent o)
    = Some (Some (token_url cfg callbackUrl token)) ∧
  (send = Completed →
   resp o = ok [("success", JBool true);
                ("message", JStr "Welcome email sent successfully");
                ("token", JStr token)]) ∧
  (check now token (tokens o)).2 =
    ok [("success", JBool true);
        ("email", JStr (str email));
        ("verified", JBool false);
        ("expired", JBool false);
        ("expiresAt", JIsoDate (now + TTL))].
Proof.
  intros He Hf. unfold Part001.send_welcome_purchase. rewrite He, Hf. simpl.
  destruct send; simpl; rewrite check_minted by (unfold TTL; lia);
    repeat split; done.
Qed.

Lemma part001_welcome_round_trip_witness :
  let o := Part001.send_welcome_purchase default_config 0 uuid_a Completed
             (Some "a@b.com") None (Some "Ann") None None None
             (Some idp_link) ∅ in
  tokens o = <[uuid_a := TokenData "a@b.com" None TTL false]> ∅ ∧
  (verificationUrl_of <$> sent o)
    = Some (Some (idp_link +:+ "?token=" +:+ uuid_a)) ∧
  get_key "token" (body (resp o)) = Some (JStr uuid_a).
Proof.
  destruct (part001_welcome_round_trip default_config 0 uuid_a Completed
              (Some "a@b.com") None (Some "Ann") None None None
              (Some idp_link) ∅ eq_refl eq_refl) as (Ht & Hs & Hr & _).
  split; [exact Ht|]. split; [exact Hs|].
  rewrite (Hr eq_refl). reflexivity.
Defined.

(** ** The accept link of the transfer mail *)

Lemma encode_cons c s :
  encodeURIComponent (String c s) =
    if uriUnescaped c then String c (encodeURIComponent s)
    else String "%" (String (hex_digit (N_of_ascii c / 16))
           (String (hex_digit (N_of_ascii c mod 16))
              (encodeURIComponent s))).
Proof. simpl. by destruct (uriUnescaped c). Qed.

(** The two digits of an escape are digits or capitals, and give the byte
    back. *)
Lemma escape_digits c :
  uriUnescaped (hex_digit (N_of_ascii c / 16)) = true ∧
  uriUnescaped (hex_digit (N_of_ascii c mod 16)) = true ∧
  ascii_of_N (16 * unhex (hex_digit (N_of_ascii c / 16))
              + unhex (hex_digit (N_of_ascii c mod 16))) = c.
Proof.
  destruct c as [[] [] [] [] [] [] [] []]; vm_compute; by repeat split.
Qed.

(** The characters of a string, in order. *)
Lemma chars_cons c s :
  String.list_ascii_of_string (String c s) = c :: String.list_ascii_of_string s.
Proof. reflexivity. Qed.

(** Every character [encodeURIComponent] returns is one it keeps, or [%]. *)
Lemma encoded_chars s c :
  c ∈ String.list_ascii_of_string (encodeURIComponent s) →
  uriUnescaped c = true ∨ c = "%"%char.
Proof.
  intros Hin. induction s as [|c0 s IH]; [by apply elem_of_nil in Hin|].
  rewrite encode_cons in Hin.
  destruct (escape_digits c0) as (Hh & Hl & _).
  destruct (uriUnescaped c0) eqn:Hu;
    rewrite ?chars_cons in Hin;
    repeat (apply elem_of_cons in Hin as [-> | Hin]); auto.
Qed.

(** X19: what [encodeURIComponent] returns holds only the characters it
    keeps and [%]: none of [& = ? # / +] nor a space is in it, whatever the
    input. *)
Theorem encoded_value_has_no_delimiter s c :
  c ∈ String.list_ascii_of_string (encodeURIComponent s) →
  (uriUnescaped c = true ∨ c = "%"%char) ∧
  c ∉ ["&"; "="; "?"; "#"; "/"; "+"; " "]%char.
Proof.
  intros Hin. pose proof (encoded_chars s c Hin) as Hc.
  split; [done|]. intros Hd.
  repeat (apply elem_of_cons in Hd as [-> | Hd]);
    try (by destruct Hc as [Hc|Hc]; vm_compute in Hc).
  by apply elem_of_nil in Hd.
Qed.

Lemma encoded_value_has_no_delimiter_witness :
  ("%"%char ∈ String.list_ascii_of_string (encodeURIComponent "a&b=c")) ∧
  (uriUnescaped "%" = true ∨ "%"%char = "%"%char) ∧
  "%"%char ∉ ["&"; "="; "?"; "#"; "/"; "+"; " "]%char.
Proof.
  assert ("%"%char ∈ String.list_ascii_of_string (encodeURIComponent "a&b=c")) as H.
  { vm_compute. apply list_elem_of_further, list_elem_of_here. }
  split; [exact H|].
  apply (encoded_value_has_no_delimiter "a&b=c" "%" H).
Defined.

(** [encodeURIComponent] loses nothing: two strings with the same encoding
    are the same string. *)
Lemma encodeURIComponent_inj a b :
  encodeURIComponent a = encodeURIComponent b → a = b.
Proof.
  revert b. induction a as [|c a IH]; intros [|d b] H.
  - done.
  - rewrite encode_cons in H. by destruct (uriUnescaped d).
  - rewrite encode_cons in H. by destruct (uriUnescaped c).
  - rewrite !encode_cons in H.
    destruct (escape_digits c) as (_ & _ & Hc).
    destruct (escape_digits d) as (_ & _ & Hd).
    destruct (uriUnescaped c) eqn:Hu, (uriUnescaped d) eqn:Hv.
    + injection H as -> H. f_equal. by apply IH.
    + injection H as -> _. vm_compute in Hu. done.
    + injection H as <- _. vm_compute in Hv. done.
    + injection H as H2 H3 H.
      f_equal; [|by apply IH]. rewrite <- Hc, <- Hd. by rewrite H2, H3.
Qed.

(** Two strings cut at a character that neither holds before the cut. *)
Lemma cut_at d a a' r r' :
  d ∉ String.list_ascii_of_string a → d ∉ String.list_ascii_of_string a' →
  a +:+ String d r = a' +:+ String d r' → a = a' ∧ r = r'.
Proof.
  revert a'. induction a as [|c a IH]; intros [|c' a'] Ha Ha' H;
    rewrite ?append_nil, ?append_cons, ?chars_cons in *.
  - by injection H.
  - injection H as -> _. exfalso. apply Ha', list_elem_of_here.
  - injection H as -> _. exfalso. apply Ha, list_elem_of_here.
  - injection H as -> H.
    apply not_elem_of_cons in Ha as [_ Ha].
    apply not_elem_of_cons in Ha' as [_ Ha'].
    destruct (IH a' Ha Ha' H) as [-> ->]. done.
Qed.

Lemma encoded_has_no_amp s :
  "&"%char ∉ String.list_ascii_of_string (encodeURIComponent s).
Proof.
  intros Hin. by destruct (encoded_chars s _ Hin) as [Hc|Hc]; vm_compute in Hc.
Qed.

(** X20: the accept link of the transfer mail names its three values
    without ambiguity: two requests that get the same link have the same
    IMEI (as the template literal prints it), the same transferId and the
    same email, whatever characters these hold. *)
Theorem acceptUrl_determines_its_values cfg tr tr' transferId transferId'
    email email' :
  acceptUrl cfg tr transferId email = acceptUrl cfg tr' transferId' email' →
  to_string (imei tr) = to_string (imei tr') ∧
  transferId = transferId' ∧ email = email'.
Proof.
  unfold acceptUrl. intros H.
  apply (inj (String.append _)) in H. apply (inj (String.append _)) in H.
  change ("&transferId=" +:+ ?x) with (String "&" ("transferId=" +:+ x)) in H.
  apply cut_at in H as [H1 H]; [|apply encoded_has_no_amp..].
  apply (inj (String.append _)) in H.
  change ("&email=" +:+ ?x) with (String "&" ("email=" +:+ x)) in H.
  apply cut_at in H as [H2 H]; [|apply encoded_has_no_amp..].
  apply (inj (String.append _)) in H.
  repeat split; by apply encodeURIComponent_inj.
Qed.

Lemma acceptUrl_determines_its_values_witness :
  to_string None = to_string (Some "undefined") ∧
  "t&email=x" = "t&email=x" ∧ "a@b.com" = "a@b.com".
Proof.
  apply (acceptUrl_determines_its_values default_config
           (Tracker None None None) (Tracker (Some "undefined") None None)
           "t&email=x" "t&email=x" "a@b.com" "a@b.com").
  reflexivity.
Defined.

(** ** One record over many requests *)

Lemma handle_absent cfg now r (vt : store) t :
  vt !! t = None → minted r ≠ Some t → (handle cfg now r vt).1 !! t = None.
Proof.
  intros Hl Hm.
  destruct (handle_effect cfg now r vt)
    as [-> | [(tok & rec & Hmint & _ & ->)
           | [(tok & ->) | (tok & rec & _ & Hrec & _ & ->)]]].
  - done.
  - rewrite lookup_insert_ne; [done|congruence].
  - destruct (decide (tok = t)) as [->|Hne];
      [apply lookup_delete_eq|by rewrite lookup_delete_ne].
  - rewrite lookup_insert_ne; [done|]. intros ->. congruence.
Qed.

(** The tokens issued after one more request, with the freshness of the
    rest. *)
Lemma fresh_tokens_step used now r evs t :
  t ∈ used → fresh_tokens used ((now, r) :: evs) →
  minted r ≠ Some t ∧ ∃ used', t ∈ used' ∧ fresh_tokens used' evs.
Proof.
  simpl. intros Hu Hf. destruct (minted r) as [tok|].
  - destruct Hf as [Hn Hf]. split; [congruence|].
    exists ({[tok]} ∪ used). split; [by apply elem_of_union_r|done].
  - split; [done|]. by exists used.
Qed.

(** X21: apart from the flag, a stored record never changes: along any
    requests whose creates draw fresh tokens, whenever a token is still
    stored later, its record has the same email, userId and expiry as
    before, and [verified] has not gone from true to false. *)
Theorem record_keeps_its_fields cfg evs (vt : store) (used : gset string)
    t td td' :
  dom vt ⊆ used → fresh_tokens used evs →
  vt !! t = Some td → run cfg evs vt !! t = Some td' →
  email td' = email td ∧ userId td' = userId td ∧
  expiresAt td' = expiresAt td ∧
  (verified td = true → verified td' = true).
Proof.
  intros Hdom Hf Hl.
  assert (t ∈ used) as Hu by (apply Hdom, elem_of_dom; eauto).
  clear Hdom. revert vt used td Hu Hf Hl.
  induction evs as [|[now r] evs IH]; intros vt used td Hu Hf Hl Hrun.
  - simpl in Hrun. assert (td' = td) as -> by congruence. done.
  - destruct (fresh_tokens_step used now r evs t Hu Hf)
      as (Hm & used' & Hu' & Hf').
    simpl in Hrun.
    destruct (handle_record cfg now r vt t td Hl Hm)
      as [Hgone | [Hsame | (Hfalse & _ & Hset)]].
    + rewrite (run_absent cfg evs _ used' t Hu' Hf' Hgone) in Hrun. done.
    + by apply (IH (handle cfg now r vt).1 used' td).
    + destruct (IH (handle cfg now r vt).1 used' (set_verified td)
                  Hu' Hf' Hset Hrun) as (He & Hi & Hx & _).
      repeat split; [done..|congruence].
Qed.

Lemma record_keeps_its_fields_witness :
  run default_config sample_requests pending_store !! uuid_a
    = Some (TokenData "a@b.com" None 1000 true) ∧
  (email (TokenData "a@b.com" None 1000 true)
     = email (TokenData "a@b.com" None 1000 false) ∧
   userId (TokenData "a@b.com" None 1000 true)
     = userId (TokenData "a@b.com" None 1000 false) ∧
   expiresAt (TokenData "a@b.com" None 1000 true)
     = expiresAt (TokenData "a@b.com" None 1000 false) ∧
   (verified (TokenData "a@b.com" None 1000 false) = true →
    verified (TokenData "a@b.com" None 1000 true) = true)).
Proof.
  split; [vm_compute; reflexivity|].
  apply (record_keeps_its_fields default_config sample_requests pending_store
           {[uuid_a]} uuid_a).
  - unfold pending_store. rewrite dom_singleton_L. done.
  - simpl. split; [|done].
    intros H. apply elem_of_singleton in H. discriminate H.
  - reflexivity.
  - vm_compute. reflexivity.
Defined.

(** A verify answered 200 found an unverified record and marked it. *)
Lemma verify_200_inv now t (vt : store) :
  status (verify now t vt).2 = 200 →
  ∃ td, vt !! t = Some td ∧ verified td = false ∧
        (verify now t vt).1 = <[t := set_verified td]> vt.
Proof.
  unfold verify. destruct (vt !! t) as [td|]; [|done].
  destruct (expiresAt td <? now); [done|].
  destruct (verified td) eqn:Hv; [done|]. eauto.
Qed.

Lemma is_verify_of_200 cfg now r t (vt : store) :
  is_verify_of t r = true → status (handle cfg now r vt).2 = 200 →
  ∃ td, vt !! t = Some td ∧ verified td = false ∧
        (handle cfg now r vt).1 !! t = Some (set_verified td).
Proof.
  destruct r as [| | | | | |token|[token|]| | |]; simpl; try done;
    intros Heq%String.eqb_eq; subst token.
  - intros (td & Hl & Hv & ->)%verify_200_inv.
    exists td. by rewrite lookup_insert_eq.
  - unfold verify_post, truthy, str. simpl.
    destruct (String.eqb t ""); simpl; [done|].
    intros (td & Hl & Hv & ->)%verify_200_inv.
    exists td. by rewrite lookup_insert_eq.
Qed.

(** Once a token is verified or gone, no verify of it succeeds again. *)
Lemma spent_token_stays_spent cfg evs (vt : store) (used : gset string) t :
  t ∈ used → fresh_tokens used evs →
  (∀ td, vt !! t = Some td → verified td = true) →
  successes cfg t evs vt = 0%nat.
Proof.
  revert vt used. induction evs as [|[now r] evs IH]; intros vt used Hu Hf Hs;
    [done|].
  destruct (fresh_tokens_step used now r evs t Hu Hf)
    as (Hm & used' & Hu' & Hf').
  simpl. rewrite (IH _ used' Hu' Hf').
  - destruct (is_verify_of t r) eqn:Hv; simpl; [|done].
    destruct (status (handle cfg now r vt).2 =? 200) eqn:Hst; [|done].
    apply Z.eqb_eq in Hst.
    destruct (is_verify_of_200 cfg now r t vt Hv Hst) as (td & Hl & Hf0 & _).
    rewrite (Hs td Hl) in Hf0. done.
  - intros td' Hl'. destruct (vt !! t) as [td|] eqn:Hl.
    + destruct (handle_record cfg now r vt t td Hl Hm)
        as [Hgone | [Hsame | (Hfalse & _)]].
      * congruence.
      * assert (td' = td) as -> by congruence. by apply Hs.
      * rewrite (Hs td eq_refl) in Hfalse. done.
    + rewrite (handle_absent cfg now r vt t Hl Hm) in Hl'. done.
Qed.

(** X22: a token is consumed at most once: however creates, verifies,
    checks and deletes are interleaved, as long as the creates draw fresh
    tokens, at most one verify of a given issued token is answered 200. *)
Theorem token_is_consumed_at_most_once cfg evs (vt : store)
    (used : gset string) t :
  t ∈ used → fresh_tokens used evs →
  (successes cfg t evs vt ≤ 1)%nat.
Proof.
  revert vt used. induction evs as [|[now r] evs IH]; intros vt used Hu Hf;
    [simpl; lia|].
  destruct (fresh_tokens_step used now r evs t Hu Hf)
    as (Hm & used' & Hu' & Hf').
  simpl.
  destruct (is_verify_of t r) eqn:Hv; simpl; [|by apply (IH _ used')].
  destruct (status (handle cfg now r vt).2 =? 200) eqn:Hst;
    [|by apply (IH _ used')].
  apply Z.eqb_eq in Hst.
  destruct (is_verify_of_200 cfg now r t vt Hv Hst) as (td & _ & _ & Hset).
  rewrite (spent_token_stays_spent cfg evs _ used' t Hu' Hf'); [lia|].
  intros td' Hl'. assert (td' = set_verified td) as -> by congruence. done.
Qed.

Lemma token_is_consumed_at_most_once_witness :
  successes default_config uuid_a sample_verifies pending_store = 1%nat ∧
  (successes default_config uuid_a sample_verifies pending_store ≤ 1)%nat.
Proof.
  split; [vm_compute; reflexivity|].
  apply (token_is_consumed_at_most_once default_config sample_verifies
           pending_store {[uuid_a]} uuid_a).
  - by apply elem_of_singleton.
  - simpl. done.
Defined.
